(** * get_glorys: the GLORYS extraction scripts

    A shallow embedding of [get_glorys_forecast_physics_daily.py] and
    [get_glorys_forecast_biogeochem_monthly.py]: the calendar arithmetic
    behind the window lists, the [MotuOptions] adapter over the request
    dictionary, the bounded retry of [get_extraction] and the window loop
    with its log. *)

From Stdlib Require Import ZArith Lia List String Ascii Bool.
From stdpp Require Import gmap strings list fin_maps pretty.

Local Open Scope Z_scope.

(** ** Calendar arithmetic

    The scripts do [from datetime import *] and [import calendar]; the
    functions below follow the pure-Python sources of those two standard
    modules, on unbounded integers as Python has them. *)

Module calendar.

(** [calendar.isleap]. *)
Definition isleap (year : Z) : bool :=
  (year mod 4 =? 0) && (negb (year mod 100 =? 0) || (year mod 400 =? 0)).

(** [calendar.mdays], index 0 unused. *)
Definition mdays : list Z := [0; 31; 28; 31; 30; 31; 30; 31; 31; 30; 31; 30; 31].

Definition index (tbl : list Z) (i : Z) : Z := nth (Z.to_nat i) tbl 0.

(** Second component of [calendar.monthrange(year, month)]: the number of
    days of the month; [None] is [IllegalMonthError]. *)
Definition monthrange_ndays (year month : Z) : option Z :=
  if (1 <=? month) && (month <=? 12)
  then Some (index mdays month + (if (month =? 2) && isleap year then 1 else 0))
  else None.

End calendar.

Module datetime.

Definition MINYEAR : Z := 1.
Definition MAXYEAR : Z := 9999.
Definition _MAXORDINAL : Z := 3652059.

Definition _DAYS_IN_MONTH : list Z :=
  [-1; 31; 28; 31; 30; 31; 30; 31; 31; 30; 31; 30; 31].

Definition _DAYS_BEFORE_MONTH : list Z :=
  [-1; 0; 31; 59; 90; 120; 151; 181; 212; 243; 273; 304; 334].

Definition _is_leap (year : Z) : bool :=
  (year mod 4 =? 0) && (negb (year mod 100 =? 0) || (year mod 400 =? 0)).

Definition _days_before_year (year : Z) : Z :=
  let y := year - 1 in y * 365 + y / 4 - y / 100 + y / 400.

Definition _days_in_month (year month : Z) : Z :=
  if (month =? 2) && _is_leap year then 29
  else calendar.index _DAYS_IN_MONTH month.

Definition _days_before_month (year month : Z) : Z :=
  calendar.index _DAYS_BEFORE_MONTH month
  + (if (2 <? month) && _is_leap year then 1 else 0).

Definition _ymd2ord (year month day : Z) : Z :=
  _days_before_year year + _days_before_month year month + day.

Definition _DI400Y : Z := 146097.
Definition _DI100Y : Z := 36524.
Definition _DI4Y : Z := 1461.

(** [_ord2ymd]: ordinal of a day (0001-01-01 is day 1) to year, month, day. *)
Definition _ord2ymd (n : Z) : Z * Z * Z :=
  let n := n - 1 in
  let n400 := n / _DI400Y in
  let n := n mod _DI400Y in
  let year := n400 * 400 + 1 in
  let n100 := n / _DI100Y in
  let n := n mod _DI100Y in
  let n4 := n / _DI4Y in
  let n := n mod _DI4Y in
  let n1 := n / 365 in
  let n := n mod 365 in
  let year := year + (n100 * 100 + n4 * 4 + n1) in
  if (n1 =? 4) || (n100 =? 4) then (year - 1, 12, 31)
  else
    let leapyear := (n1 =? 3) && (negb (n4 =? 24) || (n100 =? 3)) in
    let month := Z.shiftr (n + 50) 5 in
    let preceding :=
      calendar.index _DAYS_BEFORE_MONTH month
      + (if (2 <? month) && leapyear then 1 else 0) in
    if n <? preceding then
      let month := month - 1 in
      let preceding :=
        preceding - (calendar.index _DAYS_IN_MONTH month
                     + (if (month =? 2) && leapyear then 1 else 0)) in
      (year, month, n - preceding + 1)
    else (year, month, n - preceding + 1).

(** A naive [datetime] object (no [tzinfo]). *)
Record t : Type := mk {
  year : Z; month : Z; day : Z;
  hour : Z; minute : Z; second : Z; microsecond : Z
}.

(** The constructor's range checks: the objects Python can build. *)
Definition valid (dt : t) : bool :=
  (MINYEAR <=? year dt) && (year dt <=? MAXYEAR)
  && (1 <=? month dt) && (month dt <=? 12)
  && (1 <=? day dt) && (day dt <=? _days_in_month (year dt) (month dt))
  && (0 <=? hour dt) && (hour dt <=? 23)
  && (0 <=? minute dt) && (minute dt <=? 59)
  && (0 <=? second dt) && (second dt <=? 59)
  && (0 <=? microsecond dt) && (microsecond dt <=? 999999).

Definition toordinal (dt : t) : Z := _ymd2ord (year dt) (month dt) (day dt).

(** [timedelta(hours=h)], normalised to days and seconds; [None] is the
    [OverflowError] of a day count beyond 999999999. *)
Record timedelta : Type := mk_timedelta {
  days : Z; seconds : Z; microseconds : Z
}.

Definition timedelta_hours (h : Z) : option timedelta :=
  let s := h * 3600 in
  let d := s / 86400 in
  if (-999999999 <=? d) && (d <=? 999999999)
  then Some {| days := d; seconds := s mod 86400; microseconds := 0 |}
  else None.

(** [datetime.__add__]: the sum goes through the ordinal of the date and is
    converted back by [_ord2ymd]; [None] is [OverflowError], raised when
    the day leaves 0001-01-01 .. 9999-12-31. *)
Definition add (dt : t) (td : timedelta) : option t :=
  let us := microsecond dt + microseconds td in
  let s := hour dt * 3600 + minute dt * 60 + second dt + seconds td
           + us / 1000000 in
  let d := toordinal dt + days td + s / 86400 in
  let s := s mod 86400 in
  if (0 <? d) && (d <=? _MAXORDINAL) then
    let '(y, m, dd) := _ord2ymd d in
    Some {| year := y; month := m; day := dd;
            hour := s / 3600; minute := (s mod 3600) / 60;
            second := (s mod 3600) mod 60;
            microsecond := us mod 1000000 |}
  else None.

(** [dt2 - dt1] in whole seconds (both naive, microseconds dropped). *)
Definition seconds_between (dt1 dt2 : t) : Z :=
  (toordinal dt2 - toordinal dt1) * 86400
  + (hour dt2 * 3600 + minute dt2 * 60 + second dt2)
  - (hour dt1 * 3600 + minute dt1 * 60 + second dt1).

(** *** Formatting

    [strftime] for the directives the scripts use, as CPython 3.11 writes
    them through the C library of Linux: [%Y] is the year in decimal, not
    padded (['999'] for the year 999), and [%m], [%d], [%H], [%M], [%S]
    have two digits; any other directive is copied unchanged. *)

Definition digit (n : Z) : ascii := ascii_of_N (48 + Z.to_N n).

Definition pad2 (n : Z) : string :=
  String (digit (n / 10)) (String (digit (n mod 10)) EmptyString).

Definition pad4 (n : Z) : string :=
  String (digit (n / 1000))
    (String (digit ((n / 100) mod 10))
       (String (digit ((n / 10) mod 10))
          (String (digit (n mod 10)) EmptyString))).

(** The decimal digits of a year from 1 to 9999, without leading zeros. *)
Definition year_text (y : Z) : string :=
  if y <? 10 then String (digit y) EmptyString
  else if y <? 100 then pad2 y
  else if y <? 1000 then String (digit (y / 100)) (pad2 (y mod 100))
  else pad4 y.

Definition directive (dt : t) (c : ascii) : string :=
  match c with
  | "Y"%char => year_text (year dt)
  | "m"%char => pad2 (month dt)
  | "d"%char => pad2 (day dt)
  | "H"%char => pad2 (hour dt)
  | "M"%char => pad2 (minute dt)
  | "S"%char => pad2 (second dt)
  | "%"%char => "%"
  | _ => String "%" (String c EmptyString)
  end.

Fixpoint strftime (dt : t) (fmt : string) : string :=
  match fmt with
  | EmptyString => EmptyString
  | String "%" (String c rest) => directive dt c +:+ strftime dt rest
  | String c rest => String c (strftime dt rest)
  end.

(** *** Parsing

    [datetime.fromisoformat] on the two shapes the scripts produce and
    consume, [YYYY-MM-DD] and [YYYY-MM-DD?HH:MM:SS] ([?] any one
    character).  The other shapes the library reads are not modelled: the
    answer is [None] for them as for the texts it rejects, and the
    properties below speak of texts answered with [Some]. *)

Definition digit_val (c : ascii) : option Z :=
  let n := Z.of_N (N_of_ascii c) in
  if (48 <=? n) && (n <=? 57) then Some (n - 48) else None.

Definition num2 (a b : ascii) : option Z :=
  match digit_val a, digit_val b with
  | Some x, Some y => Some (x * 10 + y)
  | _, _ => None
  end.

Definition num4 (a b c d : ascii) : option Z :=
  match num2 a b, num2 c d with
  | Some x, Some y => Some (x * 100 + y)
  | _, _ => None
  end.

Definition checked (dt : t) : option t := if valid dt then Some dt else None.

Definition fromisoformat (s : string) : option t :=
  match list_ascii_of_string s with
  | [y1; y2; y3; y4; "-"%char; m1; m2; "-"%char; d1; d2] =>
      match num4 y1 y2 y3 y4, num2 m1 m2, num2 d1 d2 with
      | Some y, Some m, Some d => checked (mk y m d 0 0 0 0)
      | _, _, _ => None
      end
  | [y1; y2; y3; y4; "-"%char; m1; m2; "-"%char; d1; d2; _;
     h1; h2; ":"%char; n1; n2; ":"%char; s1; s2] =>
      match num4 y1 y2 y3 y4, num2 m1 m2, num2 d1 d2,
            num2 h1 h2, num2 n1 n2, num2 s1 s2 with
      | Some y, Some m, Some d, Some h, Some n, Some sec =>
          checked (mk y m d h n sec 0)
      | _, _, _, _, _, _ => None
      end
  | _ => None
  end.

End datetime.

(** [dateutil.relativedelta], restricted to the [months] keyword the
    monthly script passes. *)
Module relativedelta.

Record t : Type := mk { years : Z; months : Z }.

(** [relativedelta(months=x)]: the constructor's [_fix] carries whole
    dozens of months over into [years]. *)
Definition of_months (x : Z) : t :=
  if 11 <? Z.abs x then
    let s := Z.sgn x in
    {| years := ((x * s) / 12) * s; months := ((x * s) mod 12) * s |}
  else {| years := 0; months := x |}.

(** [dt + relativedelta]: shift year and month, clamp the day to the
    length of the target month, then [dt.replace]; [None] is the
    [ValueError] of a year outside 1..9999. *)
Definition radd (dt : datetime.t) (rd : t) : option datetime.t :=
  let year := datetime.year dt + years rd in
  let month := datetime.month dt in
  let '(year, month) :=
    if months rd =? 0 then (year, month)
    else
      let month := month + months rd in
      if 12 <? month then (year + 1, month - 12)
      else if month <? 1 then (year - 1, month + 12)
      else (year, month) in
  match calendar.monthrange_ndays year month with
  | None => None
  | Some n =>
      let day := Z.min n (datetime.day dt) in
      datetime.checked
        (datetime.mk year month day (datetime.hour dt) (datetime.minute dt)
           (datetime.second dt) (datetime.microsecond dt))
  end.

End relativedelta.

(** ** Python values, the store and the world *)

Inductive exn : Type :=
  | SocketTimeout
  | KeyError
  | IndexError
  | NameError
  | OverflowError
  | ValueError
  | FileNotFoundError
  | NotADirectoryError
  | IsADirectoryError
  | FileExistsError
  | OtherError (name : string).

Definition loc : Type := nat.

Inductive pyval : Type :=
  | VNone
  | VStr (s : string)
  | VFloat (z : Z)
  | VList (l : list string)
  | VDict (l : loc)
  | VBuiltin (name : string).

(** What the download client was handed at one call: the request
    dictionary as it stood, and the files present at that moment. *)
Record call : Type := mk_call {
  request : gmap string pyval;
  present : gmap string string
}.

(** The state the scripts act on.  [heap] holds the dictionaries, reached
    through references so that aliases see each other's writes; [files]
    maps the absolute paths of the regular files to their contents and
    [dirs] holds the absolute paths of the directories, both written as
    the system resolves them, as is [cwd], the working directory; [log]
    is the text written through the handle [f] ([None] until it is
    opened), which only the script writes, and is kept apart from what
    [files] has at the path of the log; [calls] records the client calls,
    oldest first.
    The elapsed-time lines of the console depend on the wall clock and are
    left out of [console]. *)
Record world : Type := mk_world {
  heap : gmap loc (gmap string pyval);
  files : gmap string string;
  dirs : gset string;
  cwd : string;
  log : option string;
  console : list string;
  calls : list call
}.

Definition set_heap (h : gmap loc (gmap string pyval)) (w : world) : world :=
  mk_world h (files w) (dirs w) (cwd w) (log w) (console w) (calls w).
Definition set_files (fs : gmap string string) (w : world) : world :=
  mk_world (heap w) fs (dirs w) (cwd w) (log w) (console w) (calls w).
Definition set_dirs (ds : gset string) (w : world) : world :=
  mk_world (heap w) (files w) ds (cwd w) (log w) (console w) (calls w).
Definition set_log (l : option string) (w : world) : world :=
  mk_world (heap w) (files w) (dirs w) (cwd w) l (console w) (calls w).
Definition set_console (c : list string) (w : world) : world :=
  mk_world (heap w) (files w) (dirs w) (cwd w) (log w) c (calls w).
Definition set_calls (c : list call) (w : world) : world :=
  mk_world (heap w) (files w) (dirs w) (cwd w) (log w) (console w) c.

(** A computation returns, raises, or is cut short by the loop fuel. *)
Inductive outcome (A : Type) : Type :=
  | Ret (a : A) (w : world)
  | Exc (e : exn) (w : world)
  | OutOfFuel.
Arguments Ret {A} a w.
Arguments Exc {A} e w.
Arguments OutOfFuel {A}.

Definition M (A : Type) : Type := world -> outcome A.

Definition ret {A} (a : A) : M A := fun w => Ret a w.

Definition bind {A B} (m : M A) (k : A -> M B) : M B :=
  fun w =>
    match m w with
    | Ret a w' => k a w'
    | Exc e w' => Exc e w'
    | OutOfFuel => OutOfFuel
    end.

Definition raise {A} (e : exn) : M A := fun w => Exc e w.

(** [try: m] with the exception, if any, handed to the [except] clauses. *)
Definition try_ {A} (m : M A) : M (exn + A) :=
  fun w =>
    match m w with
    | Ret a w' => Ret (inr a) w'
    | Exc e w' => Ret (inl e) w'
    | OutOfFuel => OutOfFuel
    end.

Notation "x <- c1 ;; c2" := (bind c1 (fun x => c2))
  (at level 100, c1 at next level, right associativity).
Notation "c1 ;;; c2" := (bind c1 (fun _ => c2))
  (at level 100, right associativity).

Definition of_option {A} (e : exn) (o : option A) : M A :=
  match o with Some a => ret a | None => raise e end.

(** [while guard: body], on the loop variables [s]. *)
Fixpoint while {S} (fuel : nat) (guard : S -> bool) (body : S -> M S)
    (s : S) : M S :=
  if guard s then
    match fuel with
    | O => fun _ => OutOfFuel
    | Datatypes.S n => s' <- body s ;; while n guard body s'
    end
  else ret s.

(** [for x in l: body]. *)
Fixpoint for_ {A} (l : list A) (body : A -> M unit) : M unit :=
  match l with
  | [] => ret tt
  | x :: l' => body x ;;; for_ l' body
  end.

Definition print (s : string) : M unit :=
  fun w => Ret tt (set_console (console w ++ [s]) w).

(** *** Dictionaries *)

Definition alloc (d : gmap string pyval) : M loc :=
  fun w =>
    let l := fresh (dom (heap w)) in
    Ret l (set_heap (<[l := d]> (heap w)) w).

Definition deref (l : loc) (w : world) : gmap string pyval :=
  default ∅ (heap w !! l).

(** [d[k]]. *)
Definition dict_getitem (l : loc) (k : string) : M pyval :=
  fun w => of_option KeyError (deref l w !! k) w.

(** [d[k] = v]. *)
Definition store (l : loc) (k : string) (v : pyval) (w : world) : world :=
  set_heap (<[l := <[k := v]> (deref l w)]> (heap w)) w.

Definition dict_setitem (l : loc) (k : string) (v : pyval) : M unit :=
  fun w => Ret tt (store l k v w).

(** *** Files *)

Definition starts_with_slash (p : string) : bool :=
  match p with String "/" _ => true | _ => false end.

Fixpoint ends_with_slash (p : string) : bool :=
  match p with
  | EmptyString => false
  | String c EmptyString => Ascii.eqb c "/"
  | String _ r => ends_with_slash r
  end.

(** [os.path.join a b]. *)
Definition path_join (a b : string) : string :=
  if starts_with_slash b then b
  else if String.eqb a "" || ends_with_slash a then a +:+ b
  else a +:+ "/" +:+ b.

Fixpoint has_slash (p : string) : bool :=
  match p with
  | EmptyString => false
  | String c r => Ascii.eqb c "/" || has_slash r
  end.

(** [p[:p.rfind('/') + 1]]. *)
Fixpoint head_of (p : string) : string :=
  match p with
  | EmptyString => EmptyString
  | String c r =>
      if has_slash r then String c (head_of r)
      else if Ascii.eqb c "/" then "/" else EmptyString
  end.

(** [s.rstrip('/')]. *)
Fixpoint rstrip_slash (s : string) : string :=
  match s with
  | EmptyString => EmptyString
  | String c r =>
      match rstrip_slash r with
      | EmptyString => if Ascii.eqb c "/" then EmptyString else String c EmptyString
      | r' => String c r'
      end
  end.

(** [os.path.dirname]. *)
Definition dirname (p : string) : string :=
  let head := head_of p in
  match rstrip_slash head with
  | EmptyString => head
  | stripped => stripped
  end.

Definition abspath (p : string) (w : world) : string := path_join (cwd w) p.

(** What lies at an absolute path: a regular file, or a directory.  The
    root, written with one slash or more, is always a directory. *)
Definition is_file (a : string) (w : world) : bool :=
  bool_decide (is_Some (files w !! a)).

Definition is_root (a : string) : bool :=
  negb (String.eqb a "") && String.eqb (rstrip_slash a) "".

Definition is_dir (a : string) (w : world) : bool :=
  is_root a || bool_decide (a ∈ dirs w).

(** The directories a path leads through, as it is written: what stands
    before each of its slashes, the root and repeated slashes left out. *)
Fixpoint leading (acc p : string) : list string :=
  match p with
  | EmptyString => []
  | String c r =>
      (if Ascii.eqb c "/" && negb (String.eqb acc "")
          && negb (ends_with_slash acc)
       then [acc] else [])
      ++ leading (acc +:+ String c EmptyString) r
  end.

(** One of the directories the path leads through is a regular file. *)
Definition through_file (p : string) (w : world) : bool :=
  existsb (fun q => is_file (abspath q w) w) (leading "" p).

(** [os.path.exists]; the empty path names nothing, and nothing is found
    below a regular file. *)
Definition exists_ (p : string) : M bool :=
  fun w =>
    Ret (negb (String.eqb p "")
         && negb (through_file p w)
         && (is_file (abspath p w) w || is_dir (abspath p w) w)) w.

(** [os.makedirs]: the directory is made together with those leading to
    it that are missing.  It raises [FileNotFoundError] for the empty
    path, [NotADirectoryError] when the path leads through a regular file
    and [FileExistsError] when something lies at the path already. *)
Definition makedirs (p : string) : M unit :=
  fun w =>
    let a := abspath p w in
    if String.eqb p "" then Exc FileNotFoundError w
    else if through_file p w then Exc NotADirectoryError w
    else if is_file a w || is_dir a w then Exc FileExistsError w
    else Ret tt (set_dirs (list_to_set
                             (a :: map (fun q => abspath q w) (leading "" p))
                           ∪ dirs w) w).

(** [os.path.isfile], asked of a non-empty path. *)
Definition isfile (p : string) : M bool :=
  fun w => Ret (bool_decide (is_Some (files w !! abspath p w))) w.

(** [os.remove]. *)
Definition remove (p : string) : M unit :=
  fun w =>
    match files w !! abspath p w with
    | Some _ => Ret tt (set_files (delete (abspath p w) (files w)) w)
    | None => Exc FileNotFoundError w
    end.

(** [f = open(path, 'w+')]: a fresh, empty log.  It raises
    [NotADirectoryError] when the path leads through a regular file,
    [IsADirectoryError] when a directory lies at the path and
    [FileNotFoundError] when the directory the file is to stand in is
    missing. *)
Definition open_log (path : string) : M unit :=
  fun w =>
    let a := abspath path w in
    let parent := dirname path in
    if String.eqb path "" then Exc FileNotFoundError w
    else if through_file path w then Exc NotADirectoryError w
    else if is_dir a w then Exc IsADirectoryError w
    else if negb (String.eqb parent "") && negb (is_dir (abspath parent w) w)
    then Exc FileNotFoundError w
    else Ret tt (set_log (Some "") w).

(** [f.write(s)]. *)
Definition f_write (s : string) : M unit :=
  fun w =>
    match log w with
    | Some text => Ret tt (set_log (Some (text +:+ s)) w)
    | None => Exc ValueError w
    end.

(** [ensure_dir]. *)
Definition ensure_dir (file_path : string) : M unit :=
  let directory := dirname file_path in
  b <- exists_ directory ;;
  if negb b then makedirs directory else ret tt.

(** ** The [MotuOptions] adapter *)

Record MotuOptions : Type := mk_MotuOptions { attrs : loc }.

(** [__init__]: [super().__setattr__("attrs", attrs)] puts the reference to
    the dictionary in the instance, under the name [attrs]. *)
Definition MotuOptions__init__ (d : loc) : MotuOptions := {| attrs := d |}.

(** Names found on the class: the three methods of its body and what every
    class inherits from [object] (Python 3.11, where [object] has
    [__getstate__]). *)
Definition class_names : list string :=
  ["__init__"; "__setattr__"; "__getattr__";
   "__class__"; "__delattr__"; "__dict__"; "__dir__"; "__doc__"; "__eq__";
   "__format__"; "__ge__"; "__getattribute__"; "__getstate__"; "__gt__";
   "__hash__";
   "__init_subclass__"; "__le__"; "__lt__"; "__module__"; "__ne__";
   "__new__"; "__reduce__"; "__reduce_ex__"; "__repr__"; "__sizeof__";
   "__str__"; "__subclasshook__"; "__weakref__"]%string.

(** Ordinary attribute lookup, which Python tries first: the instance
    holds [attrs], the class holds [class_names]. *)
Definition lookup_attribute (self : MotuOptions) (k : string) : option pyval :=
  if String.eqb k "attrs" then Some (VDict (attrs self))
  else if bool_decide (k ∈ class_names) then Some (VBuiltin k)
  else None.

(** [__getattr__], called when ordinary lookup finds nothing. *)
Definition MotuOptions__getattr__ (self : MotuOptions) (k : string) : M pyval :=
  r <- try_ (dict_getitem (attrs self) k) ;;
  match r with
  | inr v => ret v
  | inl KeyError => ret VNone
  | inl e => raise e
  end.

(** [__setattr__], called on every attribute assignment. *)
Definition MotuOptions__setattr__ (self : MotuOptions) (k : string) (v : pyval)
    : M unit :=
  dict_setitem (attrs self) k v.

(** Reading [self.k]. *)
Definition getattr (self : MotuOptions) (k : string) : M pyval :=
  match lookup_attribute self k with
  | Some v => ret v
  | None => MotuOptions__getattr__ self k
  end.

(** Assigning [self.k = v]. *)
Definition setattr (self : MotuOptions) (k : string) (v : pyval) : M unit :=
  MotuOptions__setattr__ self k v.

(** ** The download client

    [motuclient.motu_api.execute_request] is an external collaborator.  One
    attempt may assign options through the adapter, and then either writes
    the file named by [out_dir] and [out_name] or raises.  A client is the
    sequence of its attempts, numbered over the whole run from 0. *)

Inductive status : Type :=
  | Completed (content : string)
  | Raised (e : exn).

Record attempt : Type := mk_attempt {
  assigns : list (string * pyval);
  result : status
}.

Definition raises (a : attempt) : bool :=
  match result a with Raised _ => true | Completed _ => false end.

Definition completes (a : attempt) : bool := negb (raises a).

Section Client.

Variable client : nat -> attempt.

Definition record_call (opts : MotuOptions) : M attempt :=
  fun w =>
    Ret (client (length (calls w)))
        (set_calls (calls w ++ [mk_call (deref (attrs opts) w) (files w)]) w).

Definition write_file (p content : string) : M unit :=
  fun w => Ret tt (set_files (<[abspath p w := content]> (files w)) w).

Definition execute_request (opts : MotuOptions) : M unit :=
  out_dir <- getattr opts "out_dir" ;;
  out_name <- getattr opts "out_name" ;;
  a <- record_call opts ;;
  for_ (assigns a) (fun kv => setattr opts (fst kv) (snd kv)) ;;;
  match result a with
  | Completed content =>
      match out_dir, out_name with
      | VStr d, VStr n => write_file (path_join d n) content
      | _, _ => ret tt
      end
  | Raised e => raise e
  end.

(** ** [get_extraction], the same text in the three scripts *)

Definition loop_guard (st : Z * bool) : bool :=
  (fst st <=? 10) && Bool.eqb (snd st) false.

Definition loop_body (data_request_options_dict : loc) (st : Z * bool)
    : M (Z * bool) :=
  let counter := fst st in
  let got_file := snd st in
  print ("  Attempting to get data, counter = " +:+ pretty counter) ;;;
  r <- try_ (execute_request (MotuOptions__init__ data_request_options_dict)) ;;
  got_file <- match r with
              | inl SocketTimeout =>
                  print "  *Socket timed out, trying again" ;;; ret got_file
              | inl _ =>
                  print "  *Something went wrong, trying again" ;;; ret got_file
              | inr _ =>
                  print "  Downloaded data" ;;; ret true
              end ;;
  ret (counter + 1, got_file).

Definition get_extraction (fuel : nat) (data_request_options_dict : loc)
    : M string :=
  st <- while fuel loop_guard (loop_body data_request_options_dict)
          (1, false) ;;
  if snd st then ret "success"%string else ret "fail"%string.

End Client.

(** [range(n)]. *)
Definition range (n : Z) : list Z := map Z.of_nat (seq 0 (Z.to_nat n)).

(** [l[0]]. *)
Definition first_item {A} (l : list A) : M A := of_option IndexError (head l).

(** ** [get_glorys_forecast_physics_daily.py] *)

Module physics_daily.

(** The user input section and the two prompts. *)
Record config : Type := mk_config {
  OUTPUT_DIRECTORY : string;
  var_list : list string;
  north : Z; south : Z; west : Z; east : Z;
  date_start : string;
  number_of_days : Z;
  dep_min : Z; dep_max : Z;
  USERNAME : string;
  PASSWORD : string
}.

Definition dt_list (base : datetime.t) (ndt : Z) : option (list datetime.t) :=
  mapM (fun x => td ← datetime.timedelta_hours (24 * x); datetime.add base td)
       (range ndt).

Definition data_request_options_dict_manual (cfg : config)
    : gmap string pyval :=
  list_to_map
    [("service_id", VStr "GLOBAL_ANALYSISFORECAST_PHY_001_024-TDS");
     ("product_id", VStr " ");
     ("date_min", VStr " ");
     ("date_max", VStr " ");
     ("longitude_min", VFloat (west cfg));
     ("longitude_max", VFloat (east cfg));
     ("latitude_min", VFloat (south cfg));
     ("latitude_max", VFloat (north cfg));
     ("depth_min", VFloat (dep_min cfg));
     ("depth_max", VFloat (dep_max cfg));
     ("variable", VList (var_list cfg));
     ("motu", VStr "https://nrt.cmems-du.eu/motu-web/Motu");
     ("out_dir", VStr (OUTPUT_DIRECTORY cfg));
     ("out_name", VStr " ");
     ("auth_mode", VStr "cas");
     ("user", VStr (USERNAME cfg));
     ("pwd", VStr (PASSWORD cfg))]%string.

(** The [if]/[elif] chain on [var_list[0]] that fills in [product_id]. *)
Definition select_product (d : loc) (v0 : string) : M unit :=
  if String.eqb v0 "so" then
    dict_setitem d "product_id" (VStr "cmems_mod_glo_phy-so_anfc_0.083deg_P1D-m")
  else if String.eqb v0 "thetao" then
    dict_setitem d "product_id" (VStr "cmems_mod_glo_phy-thetao_anfc_0.083deg_P1D-m")
  else if String.eqb v0 "uo" || String.eqb v0 "vo" then
    dict_setitem d "product_id" (VStr "cmems_mod_glo_phy-cur_anfc_0.083deg_P1D-m")
  else if String.eqb v0 "zos" then
    dict_setitem d "product_id" (VStr "cmems_mod_glo_phy_anfc_0.083deg_P1D-m")
  else ret tt.

(** The chain that names the output file; outside the five names [out_fn]
    is never bound ([var_list] is not reassigned, so no earlier iteration
    can have bound it). *)
Definition out_fn_of (v0 : string) (dt : datetime.t) : option string :=
  if String.eqb v0 "so" then
    Some (datetime.strftime dt "glorys_so_%Y_%m_%d" +:+ ".nc")
  else if String.eqb v0 "thetao" then
    Some (datetime.strftime dt "glorys_thetao_%Y_%m_%d" +:+ ".nc")
  else if String.eqb v0 "uo" || String.eqb v0 "vo" then
    Some (datetime.strftime dt "glorys_uovo_%Y_%m_%d" +:+ ".nc")
  else if String.eqb v0 "zos" then
    Some (datetime.strftime dt "glorys_zos_%Y_%m_%d" +:+ ".nc")
  else None.

Definition dstr_min (dt : datetime.t) : string :=
  datetime.strftime dt "%Y-%m-%d 00:00:00".

Definition dstr_max (dt : datetime.t) : string :=
  datetime.strftime dt "%Y-%m-%d 23:59:59".

Definition force_overwrite : bool := true.

Definition header : string :=
  String "010" (String "010" "** Working on GLORYS extraction **").

Definition log_line (dt : datetime.t) (result : string) : string :=
  String "010" (" " +:+ datetime.strftime dt "%Y_%m_%d" +:+ " " +:+ result).

Section script.

Variable client : nat -> attempt.
Variable fuel : nat.
Variable cfg : config.

(** One pass through the body of [for dt in dt_list]. *)
Definition window (d : loc) (dt : datetime.t) : M unit :=
  let out_dir := OUTPUT_DIRECTORY cfg in
  v0 <- first_item (var_list cfg) ;;
  let dstr_min := dstr_min dt in
  let dstr_max := dstr_max dt in
  out_fn <- of_option NameError (out_fn_of v0 dt) ;;
  dict_setitem d "out_name" (VStr out_fn) ;;;
  dict_setitem d "date_min" (VStr dstr_min) ;;;
  dict_setitem d "date_max" (VStr dstr_max) ;;;
  print (out_dir +:+ out_fn) ;;;
  b <- isfile out_fn ;;
  (if b then (if force_overwrite then remove out_fn else ret tt) else ret tt) ;;;
  b <- isfile out_fn ;;
  if negb b then
    result <- get_extraction client fuel d ;;
    f_write (log_line dt result)
  else ret tt.

(** The script from [base = ...] to [f.close()]. *)
Definition main : M unit :=
  base <- of_option ValueError (datetime.fromisoformat (date_start cfg)) ;;
  dts <- of_option OverflowError (dt_list base (number_of_days cfg)) ;;
  d <- alloc (data_request_options_dict_manual cfg) ;;
  v0 <- first_item (var_list cfg) ;;
  select_product d v0 ;;;
  let out_dir := OUTPUT_DIRECTORY cfg in
  ensure_dir out_dir ;;;
  open_log (out_dir +:+ "log.txt") ;;;
  print (String "010" "** Working on GLORYS extraction **") ;;;
  f_write header ;;;
  for_ dts (window d) ;;;
  print "" ;;;
  print "All downloads are completed.".

End script.

End physics_daily.

(** [int(s)] on a plain run of decimal digits; [None] is [ValueError]. *)
Fixpoint int_digits (acc : Z) (s : string) : option Z :=
  match s with
  | EmptyString => Some acc
  | String c r =>
      match datetime.digit_val c with
      | Some v => int_digits (acc * 10 + v) r
      | None => None
      end
  end.

Definition int (s : string) : option Z :=
  match s with EmptyString => None | _ => int_digits 0 s end.

(** ** [get_glorys_forecast_biogeochem_monthly.py] *)

Module biogeochem_monthly.

Record config : Type := mk_config {
  OUTPUT_DIRECTORY : string;
  var_list : list string;
  north : Z; south : Z; west : Z; east : Z;
  date_start : string;
  number_of_months : Z;
  dep_min : Z; dep_max : Z;
  USERNAME : string;
  PASSWORD : string
}.

Definition dt_list (base : datetime.t) (ndt : Z) : option (list datetime.t) :=
  mapM (fun x => relativedelta.radd base (relativedelta.of_months x))
       (range ndt).

Definition data_request_options_dict_manual (cfg : config)
    : gmap string pyval :=
  list_to_map
    [("service_id", VStr "GLOBAL_ANALYSIS_FORECAST_BIO_001_028-TDS");
     ("product_id", VStr "global-analysis-forecast-bio-001-028-monthly");
     ("date_min", VStr " ");
     ("date_max", VStr " ");
     ("longitude_min", VFloat (west cfg));
     ("longitude_max", VFloat (east cfg));
     ("latitude_min", VFloat (south cfg));
     ("latitude_max", VFloat (north cfg));
     ("depth_min", VFloat (dep_min cfg));
     ("depth_max", VFloat (dep_max cfg));
     ("variable", VList (var_list cfg));
     ("motu", VStr "https://nrt.cmems-du.eu/motu-web/Motu");
     ("out_dir", VStr (OUTPUT_DIRECTORY cfg));
     ("out_name", VStr " ");
     ("auth_mode", VStr "cas");
     ("user", VStr (USERNAME cfg));
     ("pwd", VStr (PASSWORD cfg))]%string.

Definition out_fn (dt : datetime.t) : string :=
  datetime.strftime dt "glorys_biogeochem_%Y_%m" +:+ ".nc".

Definition dstr_min (dt : datetime.t) : string :=
  datetime.strftime dt "%Y-%m-01 00:00:00".

(** [str(calendar.monthrange(int(dt.strftime('%Y')), int(dt.strftime('%m')))[1])]. *)
Definition dd_str (dt : datetime.t) : option string :=
  y ← int (datetime.strftime dt "%Y");
  m ← int (datetime.strftime dt "%m");
  n ← calendar.monthrange_ndays y m;
  Some (pretty n).

Definition dstr_max (dt : datetime.t) : option string :=
  dd ← dd_str dt;
  Some (datetime.strftime dt ("%Y-%m-" +:+ dd +:+ " 23:59:59")).

Definition force_overwrite : bool := true.

Definition header : string :=
  String "010" (String "010" "** Working on GLORYS extraction **").

Definition log_line (dt : datetime.t) (result : string) : string :=
  String "010" (" " +:+ datetime.strftime dt "%Y_%m" +:+ " " +:+ result).

Section script.

Variable client : nat -> attempt.
Variable fuel : nat.
Variable cfg : config.

Definition window (d : loc) (dt : datetime.t) : M unit :=
  let out_dir := OUTPUT_DIRECTORY cfg in
  let out_fn := out_fn dt in
  let dstr_min := dstr_min dt in
  dstr_max <- of_option ValueError (dstr_max dt) ;;
  dict_setitem d "out_name" (VStr out_fn) ;;;
  dict_setitem d "date_min" (VStr dstr_min) ;;;
  dict_setitem d "date_max" (VStr dstr_max) ;;;
  print (out_dir +:+ out_fn) ;;;
  b <- isfile out_fn ;;
  (if b then (if force_overwrite then remove out_fn else ret tt) else ret tt) ;;;
  b <- isfile out_fn ;;
  if negb b then
    result <- get_extraction client fuel d ;;
    f_write (log_line dt result)
  else ret tt.

Definition main : M unit :=
  base <- of_option ValueError (datetime.fromisoformat (date_start cfg)) ;;
  dts <- of_option ValueError (dt_list base (number_of_months cfg)) ;;
  d <- alloc (data_request_options_dict_manual cfg) ;;
  let out_dir := OUTPUT_DIRECTORY cfg in
  ensure_dir out_dir ;;;
  open_log (out_dir +:+ "log.txt") ;;;
  print (String "010" "** Working on GLORYS extraction **") ;;;
  f_write header ;;;
  for_ dts (window d) ;;;
  print "" ;;;
  print "All downloads are completed.".

End script.

End biogeochem_monthly.

(** ** Notions the properties are stated with *)

(** A calendar date, and the day after it. *)
Definition date_of (dt : datetime.t) : Z * Z * Z :=
  (datetime.year dt, datetime.month dt, datetime.day dt).

Definition month_length (y m : Z) : Z :=
  if (m =? 2) then
    if (y mod 4 =? 0) && (negb (y mod 100 =? 0) || (y mod 400 =? 0))
    then 29 else 28
  else if (m =? 4) || (m =? 6) || (m =? 9) || (m =? 11) then 30
  else 31.

Definition next_day (ymd : Z * Z * Z) : Z * Z * Z :=
  let '(y, m, d) := ymd in
  if d <? month_length y m then (y, m, d + 1)
  else if m <? 12 then (y, m + 1, 1)
  else (y + 1, 1, 1).

Definition next_month (ym : Z * Z) : Z * Z :=
  let '(y, m) := ym in
  if m <? 12 then (y, m + 1) else (y + 1, 1).

Definition valid_date (ymd : Z * Z * Z) : Prop :=
  let '(y, m, d) := ymd in
  1 <= y /\ 1 <= m <= 12 /\ 1 <= d <= month_length y m.

Definition ordinal (ymd : Z * Z * Z) : Z :=
  let '(y, m, d) := ymd in datetime._ymd2ord y m d.

(** Day of the year (from 0) to month and day: the tail of [_ord2ymd]. *)
Definition yday2md (leapyear : bool) (n : Z) : Z * Z :=
  let month := Z.shiftr (n + 50) 5 in
  let preceding :=
    calendar.index datetime._DAYS_BEFORE_MONTH month
    + (if (2 <? month) && leapyear then 1 else 0) in
  if n <? preceding then
    let month := month - 1 in
    let preceding :=
      preceding - (calendar.index datetime._DAYS_IN_MONTH month
                   + (if (month =? 2) && leapyear then 1 else 0)) in
    (month, n - preceding + 1)
  else (month, n - preceding + 1).

(** What a client starting at call [n] gives within [budget] attempts: how
    many attempts are made, and whether one completes. *)
Fixpoint attempts_made (client : nat -> attempt) (n budget : nat) : nat :=
  match budget with
  | O => O
  | S b => if completes (client n) then 1%nat
           else S (attempts_made client (S n) b)
  end.

Fixpoint succeeds (client : nat -> attempt) (n budget : nat) : bool :=
  match budget with
  | O => false
  | S b => completes (client n) || succeeds client (S n) b
  end.

Definition outcome_token (client : nat -> attempt) (n : nat) : string :=
  if succeeds client n 10 then "success" else "fail".







Definition never_assigns (client : nat -> attempt) (k : string) : Prop :=
  forall n, k ∉ (assigns (client n)).*1.

(** The world after the assignments of one attempt went through the
    adapter. *)
Fixpoint assign_all (d : loc) (l : list (string * pyval)) (w : world)
    : world :=
  match l with
  | [] => w
  | kv :: l' => assign_all d l' (store d kv.1 kv.2 w)
  end.

(** [w'] is [w] after [n] further client calls on the dictionary [d]: the
    log and the working directory are as before, the calls are appended,
    and a key no attempt assigns reads the same in the dictionary and in
    every request handed over. *)
Definition after_calls (client : nat -> attempt) (d : loc) (n : nat)
    (w w' : world) : Prop :=
  log w' = log w /\ cwd w' = cwd w
  /\ exists new, calls w' = calls w ++ new /\ length new = n
     /\ forall k, never_assigns client k ->
          deref d w' !! k = deref d w !! k
          /\ Forall (fun c => request c !! k = deref d w !! k) new.

(** The five names the forecast-physics script knows. *)
Definition in_vocabulary (v0 : string) : bool :=
  bool_decide (v0 ∈ ["so"; "thetao"; "uo"; "vo"; "zos"]%string).



(** What the [if]/[elif] chain of the forecast-physics script assigns to
    [product_id], if anything. *)
Definition product_id_for (v0 : string) : option string :=
  if String.eqb v0 "so" then Some "cmems_mod_glo_phy-so_anfc_0.083deg_P1D-m"
  else if String.eqb v0 "thetao" then
    Some "cmems_mod_glo_phy-thetao_anfc_0.083deg_P1D-m"
  else if String.eqb v0 "uo" || String.eqb v0 "vo" then
    Some "cmems_mod_glo_phy-cur_anfc_0.083deg_P1D-m"
  else if String.eqb v0 "zos" then Some "cmems_mod_glo_phy_anfc_0.083deg_P1D-m"
  else None.


(** The log a computation leaves when it returns. *)
Definition final_log {A} (o : outcome A) : option string :=
  match o with
  | Ret _ w' => log w'
  | _ => None
  end.

(** The client calls a computation has made when it stops. *)
Definition calls_of {A} (o : outcome A) : list call :=
  match o with
  | Ret _ w' => calls w'
  | Exc _ w' => calls w'
  | OutOfFuel => []
  end.

(** A date with the time of day of [T0]. *)
Definition at_time_of (T0 : datetime.t) (ymd : Z * Z * Z) : datetime.t :=
  let '(y, m, d) := ymd in
  datetime.mk y m d (datetime.hour T0) (datetime.minute T0)
    (datetime.second T0) (datetime.microsecond T0).

(** ** Sample runs *)

Definition empty_world (dir : string) : world :=
  mk_world ∅ ∅ ∅ dir None [] [].

Definition sample_config (start : string) (n : Z) : physics_daily.config :=
  physics_daily.mk_config "/mnt/c/data/glorys/forecast_daily/" ["thetao"%string]
    53 39 (-131) (-122) start n 0 5728 "user" "secret".

Definition sample_monthly_config (start : string) (n : Z)
    : biogeochem_monthly.config :=
  biogeochem_monthly.mk_config "/mnt/c/data/glorys/forecast_monthly/"
    ["chl"; "o2"]%string 53 39 (-131) (-122) start n 0 5728 "user" "secret".

(** A client whose every attempt times out. *)
Definition always_fails (n : nat) : attempt :=
  mk_attempt [] (Raised SocketTimeout).

(** A client that completes at call number [k] (from 0) and fails with an
    HTTP error everywhere else; it notes an option of its own on the
    adapter each time. *)
Definition completes_at (k : nat) (n : nat) : attempt :=
  mk_attempt [("extraction_geographic"%string, VBuiltin "True")]
    (if Nat.eqb n k then Completed "netcdf" else Raised (OtherError "HTTPError")).

(** A dictionary after the assignments of one attempt. *)
Fixpoint assign_map (l : list (string * pyval)) (m : gmap string pyval)
    : gmap string pyval :=
  match l with
  | [] => m
  | kv :: l' => assign_map l' (<[kv.1 := kv.2]> m)
  end.

(** The calls one retry makes, from call number [n] with [budget] attempts
    left, on a dictionary that reads [m] while the files are [fs]: each
    failed attempt leaves its assignments in the dictionary for the next. *)
Fixpoint calls_made (client : nat -> attempt) (n budget : nat)
    (m : gmap string pyval) (fs : gmap string string) : list call :=
  match budget with
  | O => []
  | S b =>
      mk_call m fs
      :: (if completes (client n) then []
          else calls_made client (S n) b (assign_map (assigns (client n)) m) fs)
  end.

(** A path written plainly: not empty, and between its slashes only names
    that are neither empty nor [.] nor [..], hold no NUL character and
    stay within the lengths Linux allows (255 bytes for a name, 4095 for
    a path).  Such a path, joined to the working directory, is the path
    the system resolves it to; for other paths nothing is stated. *)
Fixpoint split_slash (acc p : string) : list string :=
  match p with
  | EmptyString => [acc]
  | String c r =>
      if Ascii.eqb c "/" then acc :: split_slash "" r
      else split_slash (acc +:+ String c EmptyString) r
  end.

Fixpoint has_nul (s : string) : bool :=
  match s with
  | EmptyString => false
  | String c r => Ascii.eqb c "000" || has_nul r
  end.

Definition plain_name (c : string) : bool :=
  negb (String.eqb c "") && negb (String.eqb c ".")
  && negb (String.eqb c "..") && negb (has_nul c)
  && (String.length c <=? 255)%nat.

Definition plain_path (p : string) : bool :=
  let names := split_slash "" p in
  let names := match names with EmptyString :: r => r | _ => names end in
  let names := match reverse names with
               | EmptyString :: r => reverse r
               | _ => names
               end in
  negb (String.eqb p "") && (String.length p <=? 4095)%nat
  && forallb plain_name names.


(** * Properties *)

(** ** The calendar: ordinals and dates *)

Lemma month_cases (m : Z) : 1 <= m <= 12 ->
  m = 1 \/ m = 2 \/ m = 3 \/ m = 4 \/ m = 5 \/ m = 6 \/
  m = 7 \/ m = 8 \/ m = 9 \/ m = 10 \/ m = 11 \/ m = 12.
Proof. lia. Qed.

Ltac each_month m Hm :=
  destruct (month_cases m Hm)
    as [->|[->|[->|[->|[->|[->|[->|[->|[->|[->|[->| ->]]]]]]]]]]].

(** Table lookups at literal positions and tests between literals. *)
Ltac eval_closed :=
  repeat match goal with
  | |- context [calendar.index ?t ?k] =>
      let v := eval vm_compute in (calendar.index t k) in
      change (calendar.index t k) with v
  | |- context [Z.ltb ?a ?b] =>
      let v := eval vm_compute in (Z.ltb a b) in
      lazymatch v with true => idtac | false => idtac end;
      change (Z.ltb a b) with v; cbv iota
  | |- context [Z.eqb ?a ?b] =>
      let v := eval vm_compute in (Z.eqb a b) in
      lazymatch v with true => idtac | false => idtac end;
      change (Z.eqb a b) with v; cbv iota
  end.

Lemma year_split (y : Z) : 1 <= y ->
  exists a b c e, y - 1 = 400 * a + 100 * b + 4 * c + e
    /\ 0 <= a /\ 0 <= b < 4 /\ 0 <= c < 25 /\ 0 <= e < 4
    /\ datetime._days_before_year y
       = 146097 * a + 36524 * b + 1461 * c + 365 * e
    /\ datetime._is_leap y = (e =? 3) && (negb (c =? 24) || (b =? 3)).
Proof.
  intros Hy.
  exists ((y-1)/400), (((y-1) mod 400)/100), (((y-1) mod 100)/4), ((y-1) mod 4).
  unfold datetime._days_before_year, datetime._is_leap. cbv zeta.
  repeat split; Z.div_mod_to_equations; lia.
Qed.

Lemma cycle_parts (r n100 n4 n1 n : Z) :
  r = 36524 * n100 + 1461 * n4 + 365 * n1 + n ->
  0 <= 1461 * n4 + 365 * n1 + n < 36524 ->
  0 <= 365 * n1 + n < 1461 ->
  0 <= n < 365 ->
  r / 36524 = n100 /\ (r mod 36524) / 1461 = n4
  /\ ((r mod 36524) mod 1461) / 365 = n1
  /\ ((r mod 36524) mod 1461) mod 365 = n.
Proof.
  intros -> H1 H2 H3.
  assert (E1 : (36524 * n100 + 1461 * n4 + 365 * n1 + n) mod 36524
               = 1461 * n4 + 365 * n1 + n) by (Z.div_mod_to_equations; lia).
  assert (E2 : (1461 * n4 + 365 * n1 + n) mod 1461 = 365 * n1 + n)
    by (Z.div_mod_to_equations; lia).
  rewrite E1, E2. repeat split; Z.div_mod_to_equations; lia.
Qed.

Lemma ord2ymd_yday y off :
  1 <= y -> 0 <= off < 365 + (if datetime._is_leap y then 1 else 0) ->
  datetime._ord2ymd (datetime._days_before_year y + off + 1)
  = (y, fst (yday2md (datetime._is_leap y) off),
        snd (yday2md (datetime._is_leap y) off)).
Proof.
  intros Hy Hoff.
  destruct (year_split y Hy)
    as (a & b & c & e & Hsplit & Ha & Hb & Hc & He & Hdby & Hleap).
  rewrite Hdby. rewrite Hleap in *. clear Hdby Hleap.
  unfold datetime._ord2ymd, datetime._DI400Y, datetime._DI100Y, datetime._DI4Y.
  cbv zeta.
  replace (146097 * a + 36524 * b + 1461 * c + 365 * e + off + 1 - 1)
    with ((36524 * b + 1461 * c + 365 * e + off) + a * 146097) by lia.
  set (r1 := 36524 * b + 1461 * c + 365 * e + off).
  assert (Hr1 : 0 <= r1 < 146097)
    by (unfold r1; destruct ((e =? 3) && (negb (c =? 24) || (b =? 3))); lia).
  rewrite Z.div_add, Z.mod_add by lia.
  rewrite (Z.div_small r1), (Z.mod_small r1) by lia.
  destruct (Z.eq_dec off 365) as [->|Hne].
  - assert (Hl : (e =? 3) && (negb (c =? 24) || (b =? 3)) = true)
      by (destruct ((e =? 3) && (negb (c =? 24) || (b =? 3))); [reflexivity | lia]).
    rewrite Hl. assert (He3 : e = 3) by lia. subst e.
    destruct (Z.eq_dec c 24) as [->|Hc24].
    + assert (b = 3) by lia. subst b.
      destruct (cycle_parts r1 4 0 0 0) as (-> & -> & -> & ->);
        [unfold r1; lia | lia ..|].
      vm_compute yday2md. cbn. f_equal. f_equal. lia.
    + destruct (cycle_parts r1 b c 4 0) as (-> & -> & -> & ->);
        [unfold r1; lia | lia ..|].
      vm_compute yday2md. cbn. f_equal. f_equal. lia.
  - assert (Hoff' : 0 <= off < 365)
      by (destruct ((e =? 3) && (negb (c =? 24) || (b =? 3))); lia).
    destruct (cycle_parts r1 b c e off) as (-> & -> & -> & ->);
      [unfold r1; lia | lia ..|].
    replace ((e =? 4) || (b =? 4)) with false by lia.
    unfold yday2md. cbv zeta.
    match goal with |- (if ?X then _ else _) = _ => destruct X end;
      cbn [fst snd]; f_equal; f_equal; lia.
Qed.

Lemma yday2md_days_before (leap : bool) (m d : Z) :
  1 <= m <= 12 ->
  1 <= d <= calendar.index datetime._DAYS_IN_MONTH m
            + (if (m =? 2) && leap then 1 else 0) ->
  yday2md leap (calendar.index datetime._DAYS_BEFORE_MONTH m
                + (if (2 <? m) && leap then 1 else 0) + d - 1) = (m, d).
Proof.
  intros Hm Hd. unfold yday2md. cbv zeta.
  rewrite Z.shiftr_div_pow2 by lia. change (2 ^ 5) with 32.
  each_month m Hm; destruct leap;
    match type of Hd with
    | _ <= _ <= ?u => let v := eval vm_compute in u in change u with v in Hd
    end;
    match goal with
    | |- context [calendar.index datetime._DAYS_BEFORE_MONTH ?k + ?c + d - 1] =>
        let v := eval vm_compute in
                   (calendar.index datetime._DAYS_BEFORE_MONTH k + c) in
        change (calendar.index datetime._DAYS_BEFORE_MONTH k + c) with v
    end;
    match goal with
    | |- context [(?n + 50) / 32] =>
        let E := fresh "E" in
        remember ((n + 50) / 32) as est eqn:E;
        assert (Hest : 1 <= est <= 12)
          by (subst est; Z.div_mod_to_equations; lia);
        each_month est Hest;
        try (exfalso; Z.div_mod_to_equations; lia)
    end.
  all: eval_closed; cbn [andb].
  all: match goal with |- (if ?X then _ else _) = _ => destruct X eqn:EX end.
  all: cbn [andb] in *.
  all: try (exfalso; Z.div_mod_to_equations; lia).
  all: f_equal; lia.
Qed.

Lemma days_in_month_table y m :
  1 <= m <= 12 ->
  datetime._days_in_month y m
  = calendar.index datetime._DAYS_IN_MONTH m
    + (if (m =? 2) && datetime._is_leap y then 1 else 0).
Proof.
  intros Hm. unfold datetime._days_in_month.
  each_month m Hm; destruct (datetime._is_leap y); reflexivity.
Qed.

Lemma days_in_month_length y m :
  1 <= m <= 12 -> datetime._days_in_month y m = month_length y m.
Proof.
  intros Hm. unfold datetime._days_in_month, month_length, datetime._is_leap.
  each_month m Hm;
    destruct ((y mod 4 =? 0) && (negb (y mod 100 =? 0) || (y mod 400 =? 0)));
    reflexivity.
Qed.

Lemma monthrange_length y m :
  1 <= m <= 12 -> calendar.monthrange_ndays y m = Some (month_length y m).
Proof.
  intros Hm. unfold calendar.monthrange_ndays, month_length, calendar.isleap.
  each_month m Hm;
    destruct ((y mod 4 =? 0) && (negb (y mod 100 =? 0) || (y mod 400 =? 0)));
    reflexivity.
Qed.

Lemma yday_range y m d :
  1 <= m <= 12 -> 1 <= d <= datetime._days_in_month y m ->
  0 <= datetime._days_before_month y m + d - 1
    < 365 + (if datetime._is_leap y then 1 else 0).
Proof.
  intros Hm Hd. rewrite days_in_month_table in Hd by assumption.
  unfold datetime._days_before_month.
  each_month m Hm; destruct (datetime._is_leap y);
    match type of Hd with
    | _ <= _ <= ?u => let v := eval vm_compute in u in change u with v in Hd
    end; eval_closed; cbn [andb]; lia.
Qed.

(** [_ord2ymd] undoes [_ymd2ord] on every date of the calendar. *)
Lemma ord2ymd_ymd2ord y m d :
  1 <= y -> 1 <= m <= 12 -> 1 <= d <= datetime._days_in_month y m ->
  datetime._ord2ymd (datetime._ymd2ord y m d) = (y, m, d).
Proof.
  intros Hy Hm Hd. unfold datetime._ymd2ord.
  pose proof (yday_range y m d Hm Hd) as Hoff.
  replace (datetime._days_before_year y + datetime._days_before_month y m + d)
    with (datetime._days_before_year y
          + (datetime._days_before_month y m + d - 1) + 1) by lia.
  rewrite ord2ymd_yday by assumption.
  unfold datetime._days_before_month at 1 2.
  rewrite days_in_month_table in Hd by assumption.
  rewrite yday2md_days_before by assumption. reflexivity.
Qed.

Lemma next_day_valid ymd : valid_date ymd -> valid_date (next_day ymd).
Proof.
  destruct ymd as [[y m] d]. intros (Hy & Hm & Hd). unfold next_day.
  destruct (d <? month_length y m) eqn:E1; [cbn; lia|].
  destruct (m <? 12) eqn:E2; cbn.
  - repeat split; try lia.
    unfold month_length.
    repeat match goal with |- context [if ?X then _ else _] => destruct X end; lia.
  - repeat split; try lia.
Qed.

Lemma ordinal_next_day ymd :
  valid_date ymd -> ordinal (next_day ymd) = ordinal ymd + 1.
Proof.
  destruct ymd as [[y m] d]. intros (Hy & Hm & Hd). unfold next_day.
  destruct (d <? month_length y m) eqn:E1;
    [unfold ordinal, datetime._ymd2ord; lia|].
  assert (d = month_length y m) by lia. subst d.
  rewrite <- days_in_month_length by assumption.
  rewrite days_in_month_table by assumption.
  destruct (m <? 12) eqn:E2; unfold ordinal, datetime._ymd2ord,
    datetime._days_before_month.
  - each_month m Hm; try discriminate;
      destruct (datetime._is_leap y); eval_closed; cbn [andb]; lia.
  - assert (m = 12) by lia. subst m. eval_closed. cbn [andb].
    unfold datetime._days_before_year, datetime._is_leap. cbv zeta.
    replace (y + 1 - 1) with y by lia.
    destruct ((y mod 4 =? 0) && (negb (y mod 100 =? 0) || (y mod 400 =? 0)))
      eqn:E; Z.div_mod_to_equations; lia.
Qed.

Lemma iter_next_day_valid n ymd :
  valid_date ymd -> valid_date (Nat.iter n next_day ymd).
Proof. induction n; cbn; auto using next_day_valid. Qed.

Lemma ordinal_iter_next_day n ymd :
  valid_date ymd ->
  ordinal (Nat.iter n next_day ymd) = ordinal ymd + Z.of_nat n.
Proof.
  intros Hv. induction n as [|n IH]; [cbn; lia|].
  rewrite Nat.iter_succ, ordinal_next_day by (apply iter_next_day_valid, Hv).
  lia.
Qed.

(** The day [n] days on, as [fromordinal] finds it, is [n] steps of
    [next_day] away. *)
Lemma ord2ymd_plus ymd n :
  valid_date ymd ->
  datetime._ord2ymd (ordinal ymd + Z.of_nat n) = Nat.iter n next_day ymd.
Proof.
  intros Hv. rewrite <- ordinal_iter_next_day by assumption.
  pose proof (iter_next_day_valid n ymd Hv) as Hv'.
  destruct (Nat.iter n next_day ymd) as [[y m] d].
  destruct Hv' as (Hy & Hm & Hd). apply ord2ymd_ymd2ord; try assumption.
  rewrite days_in_month_length; assumption.
Qed.

(** ** Time stamps as text *)

Lemma digit_val_digit k :
  0 <= k <= 9 -> datetime.digit_val (datetime.digit k) = Some k.
Proof.
  intros Hk. unfold datetime.digit_val, datetime.digit. cbv zeta.
  assert (Hlt : (48 + Z.to_N k < 256)%N).
  { apply N2Z.inj_lt. rewrite N2Z.inj_add, Z2N.id by lia. cbn. lia. }
  rewrite N_ascii_embedding by exact Hlt.
  rewrite N2Z.inj_add, Z2N.id by lia. change (Z.of_N 48) with 48.
  replace ((48 <=? 48 + k) && (48 + k <=? 57)) with true by lia.
  f_equal. lia.
Qed.

Lemma num2_digits n :
  0 <= n <= 99 ->
  datetime.num2 (datetime.digit (n / 10)) (datetime.digit (n mod 10)) = Some n.
Proof.
  intros Hn. unfold datetime.num2.
  rewrite !digit_val_digit by (Z.div_mod_to_equations; lia).
  f_equal. Z.div_mod_to_equations; lia.
Qed.

Lemma num4_digits n :
  0 <= n <= 9999 ->
  datetime.num4 (datetime.digit (n / 1000)) (datetime.digit ((n / 100) mod 10))
    (datetime.digit ((n / 10) mod 10)) (datetime.digit (n mod 10)) = Some n.
Proof.
  intros Hn. unfold datetime.num4, datetime.num2.
  rewrite !digit_val_digit by (Z.div_mod_to_equations; lia).
  f_equal. Z.div_mod_to_equations; lia.
Qed.

Lemma valid_ranges dt :
  datetime.valid dt = true ->
  1 <= datetime.year dt <= 9999 /\ 1 <= datetime.month dt <= 12
  /\ 1 <= datetime.day dt
       <= datetime._days_in_month (datetime.year dt) (datetime.month dt)
  /\ 0 <= datetime.hour dt <= 23 /\ 0 <= datetime.minute dt <= 59
  /\ 0 <= datetime.second dt <= 59 /\ 0 <= datetime.microsecond dt <= 999999.
Proof.
  unfold datetime.valid, datetime.MINYEAR, datetime.MAXYEAR. intros H.
  repeat (apply andb_prop in H; destruct H as [H ?]). lia.
Qed.

Lemma days_in_month_bound y m : 1 <= m <= 12 -> 28 <= datetime._days_in_month y m <= 31.
Proof.
  intros Hm. unfold datetime._days_in_month.
  each_month m Hm; destruct (datetime._is_leap y); eval_closed;
    cbn [andb]; lia.
Qed.

Lemma fromisoformat_chars (y1 y2 y3 y4 m1 m2 d1 d2 h1 h2 n1 n2 s1 s2 : ascii) :
  datetime.fromisoformat
    (String y1 (String y2 (String y3 (String y4 EmptyString))) +:+ "-"
     +:+ String m1 (String m2 EmptyString) +:+ "-"
     +:+ String d1 (String d2 EmptyString) +:+ " "
     +:+ String h1 (String h2 EmptyString) +:+ ":"
     +:+ String n1 (String n2 EmptyString) +:+ ":"
     +:+ String s1 (String s2 EmptyString))
  = match datetime.num4 y1 y2 y3 y4, datetime.num2 m1 m2, datetime.num2 d1 d2,
          datetime.num2 h1 h2, datetime.num2 n1 n2, datetime.num2 s1 s2 with
    | Some y, Some m, Some d, Some h, Some n, Some sec =>
        datetime.checked (datetime.mk y m d h n sec 0)
    | _, _, _, _, _, _ => None
    end.
Proof. reflexivity. Qed.

(** Reading back a stamp written as [YYYY-MM-DD HH:MM:SS]. *)
Lemma fromisoformat_stamp y m d h n s :
  datetime.valid (datetime.mk y m d h n s 0) = true ->
  datetime.fromisoformat
    (datetime.pad4 y +:+ "-" +:+ datetime.pad2 m +:+ "-" +:+ datetime.pad2 d
     +:+ " " +:+ datetime.pad2 h +:+ ":" +:+ datetime.pad2 n +:+ ":"
     +:+ datetime.pad2 s)
  = Some (datetime.mk y m d h n s 0).
Proof.
  intros Hv. pose proof (valid_ranges _ Hv) as (Hy & Hm & Hd & Hh & Hn & Hs & _).
  cbn [datetime.year datetime.month datetime.day datetime.hour datetime.minute
       datetime.second] in *.
  pose proof (days_in_month_bound y m Hm).
  unfold datetime.pad4, datetime.pad2. rewrite fromisoformat_chars.
  rewrite num4_digits, !num2_digits by lia.
  unfold datetime.checked. rewrite Hv. reflexivity.
Qed.

(** From the year 1000 on, [%Y] has four digits and the stamp reads back. *)
Lemma year_text_pad4 y : 1000 <= y -> datetime.year_text y = datetime.pad4 y.
Proof.
  intros Hy. unfold datetime.year_text.
  destruct (y <? 10) eqn:E1; [lia|].
  destruct (y <? 100) eqn:E2; [lia|].
  destruct (y <? 1000) eqn:E3; [lia|]. reflexivity.
Qed.

Lemma fromisoformat_stamp_year y m d h n s :
  datetime.valid (datetime.mk y m d h n s 0) = true ->
  1000 <= y ->
  datetime.fromisoformat
    (datetime.year_text y +:+ "-" +:+ datetime.pad2 m +:+ "-"
     +:+ datetime.pad2 d +:+ " " +:+ datetime.pad2 h +:+ ":"
     +:+ datetime.pad2 n +:+ ":" +:+ datetime.pad2 s)
  = Some (datetime.mk y m d h n s 0).
Proof.
  intros Hv Hy. rewrite year_text_pad4 by assumption.
  by apply fromisoformat_stamp.
Qed.

(** The year does not go down from one day to the next. *)
Lemma iter_next_day_year n ymd :
  ymd.1.1 <= (Nat.iter n next_day ymd).1.1.
Proof.
  induction n as [|n IH]; [cbn; lia|].
  rewrite Nat.iter_succ.
  destruct (Nat.iter n next_day ymd) as [[y m] d]. cbn [fst] in *.
  unfold next_day.
  destruct (d <? month_length y m); [cbn; lia|].
  destruct (m <? 12); cbn; lia.
Qed.

(** ** The adapter and the client call *)

Lemma getattr_out_dir opts w :
  getattr opts "out_dir" w = Ret (default VNone (deref (attrs opts) w !! "out_dir")) w.
Proof.
  unfold getattr. change (lookup_attribute opts "out_dir") with (@None pyval).
  unfold MotuOptions__getattr__, bind, try_, dict_getitem.
  destruct (deref (attrs opts) w !! "out_dir"); reflexivity.
Qed.

Lemma getattr_out_name opts w :
  getattr opts "out_name" w
  = Ret (default VNone (deref (attrs opts) w !! "out_name")) w.
Proof.
  unfold getattr. change (lookup_attribute opts "out_name") with (@None pyval).
  unfold MotuOptions__getattr__, bind, try_, dict_getitem.
  destruct (deref (attrs opts) w !! "out_name"); reflexivity.
Qed.

Lemma for_setattr d l w :
  for_ l (fun kv => setattr (MotuOptions__init__ d) kv.1 kv.2) w
  = Ret tt (assign_all d l w).
Proof.
  revert w. induction l as [|kv l IH]; intros w; [reflexivity|].
  cbn [for_ assign_all]. unfold bind at 1.
  unfold setattr, MotuOptions__setattr__, dict_setitem. cbn [attrs MotuOptions__init__].
  apply IH.
Qed.

Lemma assign_all_frame d l w :
  log (assign_all d l w) = log w /\ cwd (assign_all d l w) = cwd w
  /\ calls (assign_all d l w) = calls w
  /\ files (assign_all d l w) = files w.
Proof.
  revert w. induction l as [|kv l IH]; intros w; [done|].
  cbn [assign_all].
  destruct (IH (store d kv.1 kv.2 w)) as (-> & -> & -> & ->). done.
Qed.

Lemma deref_store d k v w : deref d (store d k v w) = <[k := v]> (deref d w).
Proof. unfold store, deref at 1. cbn. by rewrite lookup_insert_eq. Qed.

Lemma deref_set_console d c w : deref d (set_console c w) = deref d w.
Proof. reflexivity. Qed.

Lemma deref_store_ne d k v w k' :
  k ≠ k' -> deref d (store d k v w) !! k' = deref d w !! k'.
Proof. intros Hne. rewrite deref_store. by apply lookup_insert_ne. Qed.

Lemma assign_all_lookup d l w k :
  k ∉ l.*1 -> deref d (assign_all d l w) !! k = deref d w !! k.
Proof.
  revert w. induction l as [|kv l IH]; intros w Hk; [done|].
  cbn [assign_all]. cbn in Hk.
  apply not_elem_of_cons in Hk as [Hne Hk].
  rewrite IH by assumption. by apply deref_store_ne.
Qed.

(** One client call: it returns or raises as the attempt says, and the
    world moves on by one call. *)
Lemma execute_request_step client d w :
  exists w',
    execute_request client (MotuOptions__init__ d) w
    = match result (client (length (calls w))) with
      | Completed _ => Ret tt w'
      | Raised e => Exc e w'
      end
    /\ calls w' = calls w ++ [mk_call (deref d w) (files w)]
    /\ log w' = log w /\ cwd w' = cwd w
    /\ forall k, k ∉ (assigns (client (length (calls w)))).*1 ->
         deref d w' !! k = deref d w !! k.
Proof.
  unfold execute_request. unfold bind at 1. rewrite getattr_out_dir.
  unfold bind at 1. rewrite getattr_out_name.
  unfold bind at 1. unfold record_call. cbn [attrs MotuOptions__init__].
  set (a := client (length (calls w))).
  set (w1 := set_calls (calls w ++ [mk_call (deref d w) (files w)]) w).
  unfold bind at 1. rewrite for_setattr.
  destruct (assign_all_frame d (assigns a) w1) as (Hl & Hc & Hcalls & Hf).
  pose proof (assign_all_lookup d (assigns a) w1) as Hk.
  destruct (result a) as [content|e].
  - destruct (default VNone (deref d w !! "out_dir")),
      (default VNone (deref d w !! "out_name"));
      (eexists; split; [reflexivity|]); cbn; rewrite ?Hl, ?Hc, ?Hcalls; auto.
  - eexists; split; [reflexivity|]. rewrite Hl, Hc, Hcalls. auto.
Qed.

(** ** The retry loop *)

Lemma while_exit {S} fuel (guard : S -> bool) body s :
  guard s = false -> while fuel guard body s = ret s.
Proof. intros H. destruct fuel; cbn; rewrite H; reflexivity. Qed.

Lemma while_enter {S} fuel (guard : S -> bool) body s :
  guard s = true ->
  while (Datatypes.S fuel) guard body s
  = (s' <- body s ;; while fuel guard body s').
Proof. intros H. cbn. rewrite H. reflexivity. Qed.

Lemma after_calls_refl client d w : after_calls client d 0 w w.
Proof.
  repeat split. exists []. rewrite app_nil_r. repeat split; auto.
Qed.

Lemma after_calls_trans client d n1 n2 w w1 w2 :
  after_calls client d n1 w w1 -> after_calls client d n2 w1 w2 ->
  after_calls client d (n1 + n2) w w2.
Proof.
  intros (Hl1 & Hc1 & new1 & Hn1 & Hlen1 & Hk1) (Hl2 & Hc2 & new2 & Hn2 & Hlen2 & Hk2).
  split; [congruence|]. split; [congruence|].
  exists (new1 ++ new2). split; [by rewrite Hn2, Hn1, app_assoc|].
  split; [rewrite length_app; lia|].
  intros k Hk. destruct (Hk1 k Hk) as [E1 F1]. destruct (Hk2 k Hk) as [E2 F2].
  split; [congruence|]. apply Forall_app. split; [assumption|].
  eapply Forall_impl; [exact F2|]. cbn. intros c Hc. congruence.
Qed.

(** One pass through the loop body: the counter goes up by one, and
    [got_file] is set exactly when the attempt completes; whatever the
    attempt raises stops here. *)
Lemma loop_body_step client d c g w :
  exists w',
    loop_body client d (c, g) w
    = Ret (c + 1, g || completes (client (length (calls w)))) w'
    /\ calls w' = calls w ++ [mk_call (deref d w) (files w)]
    /\ after_calls client d 1 w w'.
Proof.
  unfold loop_body. cbn [fst snd]. unfold bind at 1. unfold print at 1.
  set (w1 := set_console _ w).
  destruct (execute_request_step client d w1) as (w' & Heq & Hcalls & Hl & Hc & Hk).
  change (calls w1) with (calls w) in *. change (deref d w1) with (deref d w) in *.
  change (files w1) with (files w) in *. change (log w1) with (log w) in *.
  change (cwd w1) with (cwd w) in *.
  unfold bind at 1. unfold try_. rewrite Heq. unfold completes, raises.
  destruct (result (client (length (calls w)))) as [content|e].
  - eexists. split; [unfold bind, print, ret; cbn; rewrite orb_true_r; reflexivity|].
    cbn. split; [assumption|]. split; [assumption|]. split; [assumption|].
    eexists. split; [exact Hcalls|]. split; [reflexivity|].
    intros k Hn. split; [apply Hk, Hn|]. repeat constructor.
  - assert (exists w2, (match e with
       | SocketTimeout => print "  *Socket timed out, trying again" ;;; ret g
       | _ => print "  *Something went wrong, trying again" ;;; ret g
       end) w' = Ret g w2 /\ calls w2 = calls w' /\ log w2 = log w'
       /\ cwd w2 = cwd w' /\ heap w2 = heap w') as (w2 & E2 & Hc2 & Hl2 & Hcw2 & Hh2).
    { destruct e; eexists; (split; [reflexivity|]); done. }
    eexists. split.
    { unfold bind at 1. rewrite E2. cbn. rewrite orb_false_r. reflexivity. }
    split; [congruence|]. split; [congruence|]. split; [congruence|].
    eexists. split; [rewrite Hc2; exact Hcalls|]. split; [reflexivity|].
    intros k Hn. split; [|repeat constructor].
    unfold deref in *. rewrite Hh2. apply Hk, Hn.
Qed.

(** The loop from counter [c] with [b] attempts left. *)
Lemma retry_loop client d b :
  forall fuel c w,
    11 - c = Z.of_nat b -> (b <= fuel)%nat ->
    exists c' w',
      while fuel loop_guard (loop_body client d) (c, false) w
      = Ret (c', succeeds client (length (calls w)) b) w'
      /\ after_calls client d (attempts_made client (length (calls w)) b) w w'
      /\ c' = c + Z.of_nat (attempts_made client (length (calls w)) b).
Proof.
  induction b as [|b IH]; intros fuel c w Hc Hfuel.
  - exists c, w. rewrite while_exit by (unfold loop_guard; cbn; lia).
    cbn. split; [reflexivity|]. split; [apply after_calls_refl|lia].
  - destruct fuel as [|fuel]; [lia|].
    rewrite while_enter by (unfold loop_guard; cbn; lia).
    destruct (loop_body_step client d c false w) as (w1 & Hb & Hcalls & Hstep).
    unfold bind at 1. rewrite Hb. cbn [orb succeeds attempts_made].
    destruct (completes (client (length (calls w)))) eqn:Hcomp.
    + exists (c + 1), w1. rewrite while_exit by (unfold loop_guard; cbn; lia).
      cbn. split; [reflexivity|]. split; [assumption|lia].
    + destruct (IH fuel (c + 1) w1) as (c' & w' & Hw & Hafter & Hc'); [lia|lia|].
      assert (Hlen : length (calls w1) = Datatypes.S (length (calls w)))
        by (rewrite Hcalls, length_app; cbn; lia).
      rewrite Hlen in *.
      exists c', w'. split; [exact Hw|]. split; [|lia].
      change (Datatypes.S (attempts_made client (Datatypes.S (length (calls w))) b))
        with (1 + attempts_made client (Datatypes.S (length (calls w))) b)%nat.
      eapply after_calls_trans; eassumption.
Qed.

Lemma attempts_made_bound client n b : (attempts_made client n b <= b)%nat.
Proof.
  revert n. induction b as [|b IH]; intros n; cbn; [lia|].
  destruct (completes (client n)); [lia|]. specialize (IH (Datatypes.S n)). lia.
Qed.

(** [get_extraction] with fuel for ten rounds. *)
Lemma get_extraction_spec client fuel d w :
  (10 <= fuel)%nat ->
  exists w',
    get_extraction client fuel d w
    = Ret (outcome_token client (length (calls w))) w'
    /\ after_calls client d (attempts_made client (length (calls w)) 10) w w'.
Proof.
  intros Hfuel. unfold get_extraction.
  destruct (retry_loop client d 10 fuel 1 w) as (c' & w' & Hw & Hafter & _);
    [reflexivity|assumption|].
  unfold bind. rewrite Hw. cbn [snd]. unfold outcome_token.
  exists w'. split; [|assumption].
  destruct (succeeds client (length (calls w)) 10); reflexivity.
Qed.

(** ** The window loop of the forecast-physics script *)

Lemma out_fn_of_vocabulary v0 dt :
  in_vocabulary v0 = true -> is_Some (physics_daily.out_fn_of v0 dt).
Proof.
  unfold in_vocabulary. intros H. apply bool_decide_eq_true_1 in H.
  unfold physics_daily.out_fn_of.
  repeat (apply elem_of_cons in H as [->|H]; [cbn; eauto|]).
  by apply elem_of_nil in H.
Qed.






Lemma append_cons (a : ascii) (s t : string) :
  String a s +:+ t = String a (s +:+ t).
Proof. reflexivity. Qed.

Lemma append_nil_r (s : string) : s +:+ "" = s.
Proof.
  induction s as [|a s IH]; [reflexivity|]. by rewrite append_cons, IH.
Qed.

Lemma append_assoc (a b c : string) : (a +:+ b) +:+ c = a +:+ (b +:+ c).
Proof.
  induction a as [|x a IH]; [reflexivity|]. by rewrite !append_cons, IH.
Qed.


Lemma select_product_run d v0 w :
  physics_daily.select_product d v0 w
  = Ret tt (match product_id_for v0 with
            | Some p => store d "product_id" (VStr p) w
            | None => w
            end).
Proof.
  unfold physics_daily.select_product, product_id_for.
  destruct (String.eqb v0 "so"); [reflexivity|].
  destruct (String.eqb v0 "thetao"); [reflexivity|].
  destruct (String.eqb v0 "uo" || String.eqb v0 "vo"); [reflexivity|].
  destruct (String.eqb v0 "zos"); reflexivity.
Qed.

Lemma head_of_nonempty p : has_slash p = true -> head_of p <> EmptyString.
Proof.
  destruct p as [|c r]; [discriminate|]. cbn [has_slash head_of]. intros H.
  destruct (has_slash r); [discriminate|].
  rewrite orb_false_r in H. rewrite H. discriminate.
Qed.

Lemma dirname_nonempty p : has_slash p = true -> dirname p <> EmptyString.
Proof.
  intros H. pose proof (head_of_nonempty p H) as Hh. unfold dirname.
  destruct (rstrip_slash (head_of p)); [assumption|discriminate].
Qed.





(** ** The retry bound *)

Lemma all_fail client n b :
  (forall j, (j < b)%nat -> raises (client (n + j)%nat) = true) ->
  attempts_made client n b = b /\ succeeds client n b = false.
Proof.
  revert n. induction b as [|b IH]; intros n H; [done|].
  cbn. unfold completes. pose proof (H 0%nat ltac:(lia)) as H0.
  rewrite Nat.add_0_r in H0. rewrite H0. cbn.
  destruct (IH (Datatypes.S n)) as [-> ->]; [|done].
  intros j Hj. replace (Datatypes.S n + j)%nat with (n + Datatypes.S j)%nat by lia.
  apply H. lia.
Qed.

Lemma first_success client k :
  forall n b,
    (1 <= k <= b)%nat ->
    (forall j, (j < k - 1)%nat -> raises (client (n + j)%nat) = true) ->
    completes (client (n + (k - 1))%nat) = true ->
    attempts_made client n b = k /\ succeeds client n b = true.
Proof.
  induction k as [|k IH]; intros n b Hk Hfail Hok; [lia|].
  destruct b as [|b]; [lia|]. cbn.
  destruct k as [|k].
  - cbn in Hok. rewrite Nat.add_0_r in Hok. rewrite Hok. done.
  - pose proof (Hfail 0%nat ltac:(lia)) as H0. rewrite Nat.add_0_r in H0.
    unfold completes at 1 2. rewrite H0. cbn.
    destruct (IH (Datatypes.S n) b) as [-> ->]; [lia| | |done].
    + intros j Hj.
      replace (Datatypes.S n + j)%nat with (n + Datatypes.S j)%nat by lia.
      apply Hfail. lia.
    + replace (Datatypes.S n + (Datatypes.S k - 1))%nat
        with (n + (Datatypes.S (Datatypes.S k) - 1))%nat by lia.
      exact Hok.
Qed.

(** C1. Whatever the request and whatever the client does, the retry of
    [get_extraction] makes at most 10 attempts; ten failures in a row give
    exactly 10 attempts and ['fail']; a first success at attempt [k]
    (1 <= k <= 10) gives exactly [k] attempts and ['success']. *)
Theorem get_extraction_retry_bound (client : nat -> attempt) (fuel : nat)
    (d : loc) (w : world) :
  (10 <= fuel)%nat ->
  exists r w',
    get_extraction client fuel d w = Ret r w'
    /\ (length (calls w') <= length (calls w) + 10)%nat
    /\ ((forall j, (j < 10)%nat ->
           raises (client (length (calls w) + j)%nat) = true) ->
        r = "fail"%string
        /\ length (calls w') = (length (calls w) + 10)%nat)
    /\ (forall k, (1 <= k <= 10)%nat ->
          (forall j, (j < k - 1)%nat ->
             raises (client (length (calls w) + j)%nat) = true) ->
          completes (client (length (calls w) + (k - 1))%nat) = true ->
          r = "success"%string
          /\ length (calls w') = (length (calls w) + k)%nat).
Proof.
  intros Hfuel.
  destruct (get_extraction_spec client fuel d w Hfuel)
    as (w' & Hget & _ & _ & new & Hcalls & Hlen & _).
  exists (outcome_token client (length (calls w))), w'.
  split; [exact Hget|].
  assert (Hn : length (calls w')
    = (length (calls w) + attempts_made client (length (calls w)) 10)%nat)
    by (rewrite Hcalls, length_app; lia).
  split.
  { pose proof (attempts_made_bound client (length (calls w)) 10). lia. }
  split.
  - intros Hfail. destruct (all_fail client _ 10 Hfail) as [Ha Hs].
    unfold outcome_token. rewrite Hs, Hn, Ha. done.
  - intros k Hk Hfail Hok.
    destruct (first_success client k _ 10 Hk Hfail Hok) as [Ha Hs].
    unfold outcome_token. rewrite Hs, Hn, Ha. done.
Qed.

Lemma get_extraction_retry_bound_witness :
  (exists w', get_extraction always_fails 10 0%nat (empty_world "/home/user")
              = Ret "fail"%string w' /\ length (calls w') = 10%nat)
  /\ (exists w', get_extraction (completes_at 2) 10 0%nat (empty_world "/home/user")
                 = Ret "success"%string w' /\ length (calls w') = 3%nat).
Proof.
  split.
  - destruct (get_extraction_retry_bound always_fails 10 0%nat
                (empty_world "/home/user") (le_n 10))
      as (r & w' & Hget & _ & Hfail & _).
    destruct Hfail as [-> Hlen]; [intros j _; reflexivity|].
    exists w'. split; [exact Hget|exact Hlen].
  - destruct (get_extraction_retry_bound (completes_at 2) 10 0%nat
                (empty_world "/home/user") (le_n 10))
      as (r & w' & Hget & _ & _ & Hok).
    destruct (Hok 3%nat) as [-> Hlen].
    + split; [repeat constructor|repeat constructor].
    + intros j Hj. destruct j as [|[|j]]; [reflexivity|reflexivity|].
      exfalso. cbn in Hj. apply Nat.succ_lt_mono in Hj.
      apply Nat.succ_lt_mono in Hj. inversion Hj.
    + reflexivity.
    + exists w'. split; [exact Hget|exact Hlen].
Defined.

(** ** Termination of the retry *)

Lemma while_mono {S} (guard : S -> bool) (body : S -> M S) fuel :
  forall s w r w' fuel',
    while fuel guard body s w = Ret r w' -> (fuel <= fuel')%nat ->
    while fuel' guard body s w = Ret r w'.
Proof.
  induction fuel as [|fuel IH]; intros s w r w' fuel' H Hle.
  - cbn in H. destruct (guard s) eqn:G; [discriminate|].
    rewrite while_exit by assumption. exact H.
  - destruct (guard s) eqn:G.
    + destruct fuel' as [|fuel']; [lia|].
      rewrite while_enter in * by assumption. unfold bind in *.
      destruct (body s w) as [s1 w1| |]; try discriminate.
      apply IH; [assumption|lia].
    + rewrite while_exit in * by assumption. exact H.
Qed.

(** C9. [get_extraction] terminates: each pass through the loop body
    returns with the counter raised by one, the guard holds only up to 10,
    so with fuel for ten passes the function returns, and the result is
    ['success'] or ['fail'], the same however much more fuel is given. *)
Theorem get_extraction_terminates (client : nat -> attempt) (d : loc)
    (w : world) :
  (forall c g w0, exists g' w1,
      loop_body client d (c, g) w0 = Ret (c + 1, g') w1)
  /\ (forall c g, loop_guard (c, g) = true -> c <= 10)
  /\ exists r w',
       (forall fuel, (10 <= fuel)%nat ->
          get_extraction client fuel d w = Ret r w')
       /\ (r = "success"%string \/ r = "fail"%string)
       /\ (length (calls w') <= length (calls w) + 10)%nat.
Proof.
  split.
  { intros c g w0. destruct (loop_body_step client d c g w0) as (w1 & H & _).
    eauto. }
  split.
  { intros c g H. unfold loop_guard in H. cbn in H. lia. }
  destruct (get_extraction_spec client 10 d w (le_n 10))
    as (w' & Hget & _ & _ & new & Hcalls & Hlen & _).
  exists (outcome_token client (length (calls w))), w'.
  split; [|split].
  - intros fuel Hfuel. unfold get_extraction, bind in *.
    destruct (while 10 loop_guard (loop_body client d) (1, false) w)
      as [st w1| |] eqn:E; try discriminate.
    rewrite (while_mono _ _ 10 _ _ _ _ fuel E Hfuel). exact Hget.
  - unfold outcome_token. destruct (succeeds client _ 10); auto.
  - pose proof (attempts_made_bound client (length (calls w)) 10).
    rewrite Hcalls, length_app. lia.
Qed.

Lemma get_extraction_terminates_witness :
  exists r w',
    get_extraction (completes_at 4) 25 0%nat (empty_world "/home/user")
    = Ret r w'
    /\ (r = "success"%string \/ r = "fail"%string).
Proof.
  destruct (get_extraction_terminates (completes_at 4) 0%nat
              (empty_world "/home/user"))
    as (_ & _ & r & w' & Hret & Hr & _).
  exists r, w'. split; [|exact Hr].
  apply Hret. repeat constructor.
Defined.

(** ** The log and the run *)





(** ** Failures stay inside the retry *)



(** ** Product selection *)

(** C6. In the forecast-physics script the product identifier follows from
    the first element of the variable list: ['so'], ['thetao'], ['uo'] or
    ['vo'], and ['zos'] each select their product, and any other first
    element leaves the request as it was, its [product_id] still the
    template's blank. *)
Theorem product_selection (cfg : physics_daily.config) (d : loc) (w : world)
    (v0 : string) (rest : list string) :
  physics_daily.var_list cfg = v0 :: rest ->
  physics_daily.data_request_options_dict_manual cfg !! "product_id"
  = Some (VStr " ")
  /\ exists w',
       (v <- first_item (physics_daily.var_list cfg) ;;
        physics_daily.select_product d v) w = Ret tt w'
       /\ (v0 = "so"%string ->
           deref d w' !! "product_id"
           = Some (VStr "cmems_mod_glo_phy-so_anfc_0.083deg_P1D-m"))
       /\ (v0 = "thetao"%string ->
           deref d w' !! "product_id"
           = Some (VStr "cmems_mod_glo_phy-thetao_anfc_0.083deg_P1D-m"))
       /\ (v0 = "uo"%string \/ v0 = "vo"%string ->
           deref d w' !! "product_id"
           = Some (VStr "cmems_mod_glo_phy-cur_anfc_0.083deg_P1D-m"))
       /\ (v0 = "zos"%string ->
           deref d w' !! "product_id"
           = Some (VStr "cmems_mod_glo_phy_anfc_0.083deg_P1D-m"))
       /\ (v0 ∉ ["so"; "thetao"; "uo"; "vo"; "zos"]%string -> w' = w).
Proof.
  intros Hvar. split; [reflexivity|].
  rewrite Hvar. unfold first_item. cbn [head of_option].
  unfold bind, ret. rewrite select_product_run.
  eexists. split; [reflexivity|].
  split; [intros ->; cbn; by rewrite deref_store, lookup_insert_eq|].
  split; [intros ->; cbn; by rewrite deref_store, lookup_insert_eq|].
  split; [intros [-> | ->]; cbn; by rewrite deref_store, lookup_insert_eq|].
  split; [intros ->; cbn; by rewrite deref_store, lookup_insert_eq|].
  intros Hout. unfold product_id_for.
  repeat (apply not_elem_of_cons in Hout as [?%String.eqb_neq Hout]).
  by repeat match goal with H : String.eqb _ _ = false |- _ => rewrite H; clear H end.
Qed.

Lemma product_selection_witness :
  exists w',
    (v <- first_item ["uo"; "vo"]%string ;; physics_daily.select_product 0%nat v)
      (empty_world "/home/user") = Ret tt w'
    /\ deref 0%nat w' !! "product_id"
       = Some (VStr "cmems_mod_glo_phy-cur_anfc_0.083deg_P1D-m").
Proof.
  destruct (product_selection
              (physics_daily.mk_config "/out/" ["uo"; "vo"]%string 53 39 (-131)
                 (-122) "2021-01-01 00:00:00" 1 0 5728 "user" "secret")
              0%nat (empty_world "/home/user") "uo" ["vo"%string] eq_refl)
    as (_ & w' & Hrun & _ & _ & Hcur & _).
  exists w'. split; [exact Hrun|]. apply Hcur. left. reflexivity.
Defined.

(** ** What the loop leaves alone *)




(** ** The adapter *)

Lemma getattr_plain opts k w :
  k <> "attrs"%string -> k ∉ class_names ->
  getattr opts k w = Ret (default VNone (deref (attrs opts) w !! k)) w.
Proof.
  intros Hne Hcl. unfold getattr, lookup_attribute.
  apply String.eqb_neq in Hne. rewrite Hne.
  rewrite bool_decide_eq_false_2 by assumption.
  unfold MotuOptions__getattr__, bind, try_, dict_getitem.
  destruct (deref (attrs opts) w !! k); reflexivity.
Qed.

(** C10, as the code has it. For a dictionary [dict] behind the adapter and
    a name [k] that ordinary lookup does not resolve (not [attrs], not a
    name of the class), reading [k] gives [dict[k]] when [k] is present and
    [None] when it is absent, and never raises; reading [attrs] gives the
    dictionary itself.  Assigning any [k], [attrs] included, stores the
    value under [k] in the very dictionary the adapter was built on, where
    every adapter on it reads it back, and touches no other dictionary. *)
Theorem motu_options_attributes (w : world) (d : loc)
    (dict : gmap string pyval) (k : string) (v : pyval) :
  heap w !! d = Some dict ->
  (k <> "attrs"%string -> k ∉ class_names ->
   getattr (MotuOptions__init__ d) k w = Ret (default VNone (dict !! k)) w)
  /\ getattr (MotuOptions__init__ d) "attrs" w = Ret (VDict d) w
  /\ exists w',
       setattr (MotuOptions__init__ d) k v w = Ret tt w'
       /\ heap w' !! d = Some (<[k := v]> dict)
       /\ (forall d', d' <> d -> heap w' !! d' = heap w !! d')
       /\ (k <> "attrs"%string -> k ∉ class_names ->
           getattr (MotuOptions__init__ d) k w' = Ret v w').
Proof.
  intros Hd.
  assert (Hderef : deref d w = dict) by (unfold deref; by rewrite Hd).
  split.
  { intros Hne Hcl. rewrite getattr_plain by assumption.
    cbn [attrs MotuOptions__init__]. by rewrite Hderef. }
  split; [reflexivity|].
  eexists. split; [reflexivity|].
  split; [unfold store; cbn; by rewrite lookup_insert_eq, Hderef|].
  split; [intros d' Hne; unfold store; cbn; by apply lookup_insert_ne|].
  intros Hne Hcl. rewrite getattr_plain by assumption.
  cbn [attrs MotuOptions__init__]. by rewrite deref_store, lookup_insert_eq.
Qed.

Lemma motu_options_attributes_witness :
  getattr (MotuOptions__init__ 0%nat) "pwd"
    (mk_world {[ 0%nat := {[ "user"%string := VStr "me" ]} ]} ∅ ∅ "/" None [] [])
  = Ret VNone
      (mk_world {[ 0%nat := {[ "user"%string := VStr "me" ]} ]} ∅ ∅ "/" None [] []).
Proof.
  destruct (motu_options_attributes
              (mk_world {[ 0%nat := {[ "user"%string := VStr "me" ]} ]} ∅ ∅ "/"
                 None [] [])
              0%nat {[ "user"%string := VStr "me" ]} "pwd" VNone)
    as (Hread & _).
  - reflexivity.
  - apply Hread.
    + discriminate.
    + apply (bool_decide_unpack _). vm_compute. exact I.
Defined.

(** C10, as stated: with the key [attrs] present in the dictionary,
    reading the attribute [attrs] does not give the value stored under
    that key; it gives the dictionary. *)
Lemma motu_options_attrs_counterexample :
  let w := mk_world {[ 0%nat := {[ "attrs"%string := VStr "x" ]} ]} ∅ ∅ "/"
             None [] [] in
  deref 0%nat w !! "attrs" = Some (VStr "x")
  /\ getattr (MotuOptions__init__ 0%nat) "attrs" w = Ret (VDict 0%nat) w
  /\ getattr (MotuOptions__init__ 0%nat) "attrs" w <> Ret (VStr "x") w.
Proof.
  cbv zeta. split; [reflexivity|]. split; [reflexivity|].
  intros H. discriminate H.
Qed.

(** ** Overwriting *)

(** C2 at a failing input: the run starts in [/home/user] while a file of
    the first window's name lies in the output directory.  The file is
    still there, with its old content, when the client is called for that
    window; started in the output directory itself, the same run removes
    it first. *)
Theorem stale_output_not_removed :
  let path := "/mnt/c/data/glorys/forecast_daily/glorys_thetao_2021_01_01.nc"%string in
  let run dir :=
    physics_daily.main (completes_at 0) 10
      (sample_config "2021-01-01 00:00:00" 1)
      (mk_world ∅ {[ path := "old"%string ]} ∅ dir None [] []) in
  (fun c => present c !! path) <$> head (calls_of (run "/home/user"%string))
  = Some (Some "old"%string)
  /\ (fun c => present c !! path)
       <$> head (calls_of (run "/mnt/c/data/glorys/forecast_daily"%string))
     = Some None.
Proof. cbv zeta. split; vm_compute; reflexivity. Qed.

(** ** Daily windows *)

Lemma valid_date_of dt : datetime.valid dt = true -> valid_date (date_of dt).
Proof.
  intros Hv. destruct (valid_ranges dt Hv) as (Hy & Hm & Hd & _).
  unfold date_of, valid_date. rewrite <- days_in_month_length by lia. lia.
Qed.

Lemma days_before_year_mono y1 y2 :
  1 <= y1 <= y2 -> datetime._days_before_year y1 <= datetime._days_before_year y2.
Proof.
  intros H. unfold datetime._days_before_year. cbv zeta.
  Z.div_mod_to_equations. lia.
Qed.

Lemma days_before_month_nonneg y m :
  1 <= m <= 12 -> 0 <= datetime._days_before_month y m.
Proof.
  intros Hm. unfold datetime._days_before_month.
  each_month m Hm; destruct (datetime._is_leap y); eval_closed; cbn [andb]; lia.
Qed.

Lemma ordinal_positive ymd : valid_date ymd -> 1 <= ordinal ymd.
Proof.
  destruct ymd as [[y m] d]. intros (Hy & Hm & Hd).
  unfold ordinal, datetime._ymd2ord.
  pose proof (days_before_year_mono 1 y ltac:(lia)) as H1.
  change (datetime._days_before_year 1) with 0 in H1.
  pose proof (days_before_month_nonneg y m Hm). lia.
Qed.

(** A date whose ordinal is within [_MAXORDINAL] has a year up to 9999. *)
Lemma ordinal_year_bound ymd :
  valid_date ymd -> ordinal ymd <= datetime._MAXORDINAL -> ymd.1.1 <= 9999.
Proof.
  destruct ymd as [[y m] d]. intros (Hy & Hm & Hd) Hord. cbn [fst].
  destruct (Z_le_gt_dec y 9999) as [|Hgt]; [assumption|exfalso].
  unfold ordinal, datetime._ymd2ord, datetime._MAXORDINAL in Hord.
  pose proof (days_before_year_mono 10000 y ltac:(lia)) as H1.
  change (datetime._days_before_year 10000) with 3652059 in H1.
  pose proof (days_before_month_nonneg y m Hm). lia.
Qed.

(** [base + timedelta(hours=24*x)]: [x] days on, same time of day. *)
Lemma add_days T0 (x : nat) :
  datetime.valid T0 = true ->
  datetime.toordinal T0 + Z.of_nat x <= datetime._MAXORDINAL ->
  (td ← datetime.timedelta_hours (24 * Z.of_nat x); datetime.add T0 td)
  = Some (at_time_of T0 (Nat.iter x next_day (date_of T0))).
Proof.
  intros Hv Hmax. pose proof (valid_date_of T0 Hv) as Hd.
  pose proof (ordinal_positive _ Hd) as Hpos.
  destruct (valid_ranges T0 Hv) as (_ & _ & _ & Hh & Hmi & Hs & Hus).
  change (datetime.toordinal T0) with (ordinal (date_of T0)) in Hmax.
  unfold datetime._MAXORDINAL in Hmax.
  unfold datetime.timedelta_hours. cbv zeta.
  replace (24 * Z.of_nat x * 3600) with (Z.of_nat x * 86400) by lia.
  rewrite Z.div_mul, Z.mod_mul by lia.
  replace ((-999999999 <=? Z.of_nat x) && (Z.of_nat x <=? 999999999))
    with true by lia.
  cbn [mbind option_bind]. unfold datetime.add.
  cbn [datetime.days datetime.seconds datetime.microseconds]. cbv zeta.
  change (datetime.toordinal T0) with (ordinal (date_of T0)).
  rewrite !Z.add_0_r.
  rewrite (Z.div_small (datetime.microsecond T0)) by lia.
  rewrite (Z.mod_small (datetime.microsecond T0)) by lia.
  rewrite ?Z.add_0_r.
  set (s := datetime.hour T0 * 3600 + datetime.minute T0 * 60 + datetime.second T0).
  assert (Hs' : 0 <= s < 86400) by (unfold s; lia).
  rewrite (Z.div_small s), (Z.mod_small s) by lia. rewrite Z.add_0_r.
  replace ((0 <? ordinal (date_of T0) + Z.of_nat x)
           && (ordinal (date_of T0) + Z.of_nat x <=? datetime._MAXORDINAL))
    with true by (unfold datetime._MAXORDINAL; lia).
  rewrite ord2ymd_plus by assumption.
  destruct (Nat.iter x next_day (date_of T0)) as [[y m] d].
  unfold at_time_of. f_equal. f_equal; unfold s; Z.div_mod_to_equations; lia.
Qed.

Lemma mapM_seq {A} (f : Z -> option A) (g : nat -> A) n :
  forall start,
    (forall i, (start <= i < start + n)%nat -> f (Z.of_nat i) = Some (g i)) ->
    mapM f (map Z.of_nat (seq start n)) = Some (map g (seq start n)).
Proof.
  induction n as [|n IH]; intros start H; [reflexivity|].
  cbn [seq map mapM]. rewrite (H start) by lia. cbn [mbind option_bind].
  rewrite (IH (Datatypes.S start)) by (intros i Hi; apply H; lia).
  reflexivity.
Qed.

Lemma lookup_map_seq {A} (g : nat -> A) n i x :
  map g (seq 0 n) !! i = Some x -> x = g i /\ (i < n)%nat.
Proof.
  intros H. change (map g (seq 0 n)) with (g <$> seq 0 n) in H.
  rewrite list_lookup_fmap in H.
  destruct (seq 0 n !! i) as [j|] eqn:E; [|discriminate].
  apply lookup_seq in E as [-> Hi]. cbn in H. split; [congruence|assumption].
Qed.

(** The window list of the daily script, while it stays in the calendar. *)
Lemma daily_dt_list T0 N :
  datetime.valid T0 = true -> 0 <= N ->
  datetime.toordinal T0 + (N - 1) <= datetime._MAXORDINAL ->
  physics_daily.dt_list T0 N
  = Some (map (fun i => at_time_of T0 (Nat.iter i next_day (date_of T0)))
              (seq 0 (Z.to_nat N))).
Proof.
  intros Hv HN Hmax. unfold physics_daily.dt_list, range.
  apply mapM_seq. intros i Hi. apply add_days; [assumption|lia].
Qed.

Lemma valid_stamp ymd h n s :
  valid_date ymd -> ordinal ymd <= datetime._MAXORDINAL ->
  0 <= h <= 23 -> 0 <= n <= 59 -> 0 <= s <= 59 ->
  datetime.valid (datetime.mk ymd.1.1 ymd.1.2 ymd.2 h n s 0) = true.
Proof.
  intros Hd Hord Hh Hn Hs. pose proof (ordinal_year_bound ymd Hd Hord) as Hy.
  destruct ymd as [[y m] d]. destruct Hd as (Hy1 & Hm & Hd). cbn [fst snd] in *.
  rewrite <- days_in_month_length in Hd by assumption.
  unfold datetime.valid, datetime.MINYEAR, datetime.MAXYEAR.
  cbn [datetime.year datetime.month datetime.day datetime.hour
       datetime.minute datetime.second datetime.microsecond].
  lia.
Qed.

(** C5, as stated: started on 9999-12-31 with two days asked for, the
    daily script builds no window list at all; it stops with
    [OverflowError] before the log is opened. *)
Lemma daily_windows_counterexample :
  datetime.fromisoformat "9999-12-31 00:00:00"
  = Some (datetime.mk 9999 12 31 0 0 0 0)
  /\ physics_daily.dt_list (datetime.mk 9999 12 31 0 0 0 0) 2 = None
  /\ physics_daily.main always_fails 10
       (sample_config "9999-12-31 00:00:00" 2) (empty_world "/home/user")
     = Exc OverflowError (empty_world "/home/user").
Proof. split; [|split]; vm_compute; reflexivity. Qed.

(** ** Monthly windows *)

Lemma iter_next_month i y m :
  1 <= m <= 12 ->
  Nat.iter i next_month (y, m)
  = (y + (m - 1 + Z.of_nat i) / 12, (m - 1 + Z.of_nat i) mod 12 + 1).
Proof.
  intros Hm. induction i as [|i IH].
  - cbn. f_equal; Z.div_mod_to_equations; lia.
  - rewrite Nat.iter_succ, IH. unfold next_month.
    destruct ((m - 1 + Z.of_nat i) mod 12 + 1 <? 12) eqn:E;
      f_equal; Z.div_mod_to_equations; lia.
Qed.

Lemma valid_clamped T0 y m :
  datetime.valid T0 = true -> 1 <= y <= 9999 -> 1 <= m <= 12 ->
  datetime.valid
    (datetime.mk y m (Z.min (month_length y m) (datetime.day T0))
       (datetime.hour T0) (datetime.minute T0) (datetime.second T0)
       (datetime.microsecond T0)) = true.
Proof.
  intros Hv Hy Hm.
  destruct (valid_ranges T0 Hv) as (Hy0 & Hm0 & Hd0 & Hh & Hmi & Hs & Hus).
  pose proof (days_in_month_bound y m Hm) as Hb.
  pose proof (days_in_month_length y m Hm) as Hl.
  unfold datetime.valid, datetime.MINYEAR, datetime.MAXYEAR.
  cbn [datetime.year datetime.month datetime.day datetime.hour
       datetime.minute datetime.second datetime.microsecond].
  rewrite Hl in *. lia.
Qed.

(** [base + relativedelta(months=x)]. *)
Lemma radd_months T0 (x : nat) :
  datetime.valid T0 = true ->
  let t := datetime.month T0 - 1 + Z.of_nat x in
  let y := datetime.year T0 + t / 12 in
  let m := t mod 12 + 1 in
  y <= 9999 ->
  relativedelta.radd T0 (relativedelta.of_months (Z.of_nat x))
  = Some (datetime.mk y m (Z.min (month_length y m) (datetime.day T0))
            (datetime.hour T0) (datetime.minute T0) (datetime.second T0)
            (datetime.microsecond T0)).
Proof.
  intros Hv t y m Hy.
  destruct (valid_ranges T0 Hv) as (Hy0 & Hm0 & Hd0 & Hh & Hmi & Hs & Hus).
  assert (Hm : 1 <= m <= 12) by (unfold m; Z.div_mod_to_equations; lia).
  unfold relativedelta.radd.
  assert (Hpair :
    (if relativedelta.months (relativedelta.of_months (Z.of_nat x)) =? 0
     then (datetime.year T0
           + relativedelta.years (relativedelta.of_months (Z.of_nat x)),
           datetime.month T0)
     else
       if 12 <? datetime.month T0
                + relativedelta.months (relativedelta.of_months (Z.of_nat x))
       then (datetime.year T0
             + relativedelta.years (relativedelta.of_months (Z.of_nat x)) + 1,
             datetime.month T0
             + relativedelta.months (relativedelta.of_months (Z.of_nat x)) - 12)
       else
         if datetime.month T0
            + relativedelta.months (relativedelta.of_months (Z.of_nat x)) <? 1
         then (datetime.year T0
               + relativedelta.years (relativedelta.of_months (Z.of_nat x)) - 1,
               datetime.month T0
               + relativedelta.months (relativedelta.of_months (Z.of_nat x)) + 12)
         else (datetime.year T0
               + relativedelta.years (relativedelta.of_months (Z.of_nat x)),
               datetime.month T0
               + relativedelta.months (relativedelta.of_months (Z.of_nat x))))
    = (y, m)).
  { unfold relativedelta.of_months, y, m, t.
    destruct (11 <? Z.abs (Z.of_nat x)) eqn:E11;
      cbn [relativedelta.years relativedelta.months].
    - replace (Z.sgn (Z.of_nat x)) with 1 by lia. rewrite !Z.mul_1_r.
      repeat match goal with |- context [if ?c then _ else _] =>
        let E := fresh "E" in destruct c eqn:E end;
        f_equal; Z.div_mod_to_equations; lia.
    - repeat match goal with |- context [if ?c then _ else _] =>
        let E := fresh "E" in destruct c eqn:E end;
        f_equal; Z.div_mod_to_equations; lia. }
  cbv zeta. rewrite Hpair. rewrite monthrange_length by assumption.
  unfold datetime.checked.
  assert (Hy1 : 1 <= y) by (unfold y, t; Z.div_mod_to_equations; lia).
  rewrite valid_clamped by (assumption || lia). reflexivity.
Qed.

Lemma int_pad4 y : 0 <= y <= 9999 -> int (datetime.pad4 y) = Some y.
Proof.
  intros Hy. unfold int, datetime.pad4. cbn [int_digits].
  rewrite !digit_val_digit by (Z.div_mod_to_equations; lia).
  f_equal. Z.div_mod_to_equations; lia.
Qed.

Lemma int_pad2 n : 0 <= n <= 99 -> int (datetime.pad2 n) = Some n.
Proof.
  intros Hn. unfold int, datetime.pad2. cbn [int_digits].
  rewrite !digit_val_digit by (Z.div_mod_to_equations; lia).
  f_equal. Z.div_mod_to_equations; lia.
Qed.

Lemma int_year_text y : 1 <= y <= 9999 -> int (datetime.year_text y) = Some y.
Proof.
  intros Hy. unfold datetime.year_text.
  destruct (y <? 10) eqn:E1.
  { unfold int. cbn [int_digits]. rewrite digit_val_digit by lia.
    f_equal. }
  destruct (y <? 100) eqn:E2; [apply int_pad2; lia|].
  destruct (y <? 1000) eqn:E3; [|apply int_pad4; lia].
  unfold int, datetime.pad2. cbn [int_digits].
  rewrite !digit_val_digit by (Z.div_mod_to_equations; lia).
  f_equal. Z.div_mod_to_equations; lia.
Qed.

Lemma month_length_cases y m :
  month_length y m = 28 \/ month_length y m = 29
  \/ month_length y m = 30 \/ month_length y m = 31.
Proof.
  unfold month_length.
  repeat match goal with |- context [if ?c then _ else _] => destruct c end;
    auto.
Qed.

(** The strings of one monthly window. *)
Lemma monthly_dstr_max_text y m d h n s us :
  datetime.valid (datetime.mk y m d h n s us) = true ->
  biogeochem_monthly.dstr_max (datetime.mk y m d h n s us)
  = Some (datetime.year_text y +:+ "-" +:+ datetime.pad2 m +:+ "-"
          +:+ datetime.pad2 (month_length y m) +:+ " 23:59:59").
Proof.
  intros Hv. destruct (valid_ranges _ Hv) as (Hy & Hm & Hd & _).
  cbn [datetime.year datetime.month datetime.day] in *.
  unfold biogeochem_monthly.dstr_max, biogeochem_monthly.dd_str.
  change (datetime.strftime (datetime.mk y m d h n s us) "%Y")
    with (datetime.year_text y +:+ "").
  change (datetime.strftime (datetime.mk y m d h n s us) "%m")
    with (datetime.pad2 m).
  rewrite append_nil_r, int_year_text, int_pad2 by lia.
  cbn [mbind option_bind].
  rewrite monthrange_length by assumption. cbn [mbind option_bind].
  destruct (month_length_cases y m) as [E|[E|[E|E]]]; rewrite E; reflexivity.
Qed.

Lemma monthly_strings y m d h n s us :
  datetime.valid (datetime.mk y m d h n s us) = true ->
  1000 <= y ->
  datetime.fromisoformat
    (biogeochem_monthly.dstr_min (datetime.mk y m d h n s us))
  = Some (datetime.mk y m 1 0 0 0 0)
  /\ exists smax,
       biogeochem_monthly.dstr_max (datetime.mk y m d h n s us) = Some smax
       /\ datetime.fromisoformat smax
          = Some (datetime.mk y m (month_length y m) 23 59 59 0).
Proof.
  intros Hv Hyear. destruct (valid_ranges _ Hv) as (Hy & Hm & Hd & _).
  cbn [datetime.year datetime.month datetime.day] in *.
  pose proof (days_in_month_bound y m Hm) as Hb.
  pose proof (days_in_month_length y m Hm) as Hl.
  assert (Hfirst : datetime.valid (datetime.mk y m 1 0 0 0 0) = true).
  { unfold datetime.valid, datetime.MINYEAR, datetime.MAXYEAR.
    cbn [datetime.year datetime.month datetime.day datetime.hour
         datetime.minute datetime.second datetime.microsecond]. lia. }
  assert (Hlast : datetime.valid
            (datetime.mk y m (month_length y m) 23 59 59 0) = true).
  { unfold datetime.valid, datetime.MINYEAR, datetime.MAXYEAR.
    cbn [datetime.year datetime.month datetime.day datetime.hour
         datetime.minute datetime.second datetime.microsecond]. lia. }
  split; [exact (fromisoformat_stamp_year y m 1 0 0 0 Hfirst Hyear)|].
  rewrite monthly_dstr_max_text by assumption.
  eexists. split; [reflexivity|].
  exact (fromisoformat_stamp_year y m (month_length y m) 23 59 59 Hlast Hyear).
Qed.

Lemma monthly_dt_list T0 N :
  datetime.valid T0 = true -> 0 <= N ->
  datetime.year T0 + (datetime.month T0 - 1 + (N - 1)) / 12 <= 9999 ->
  biogeochem_monthly.dt_list T0 N
  = Some (map (fun i =>
                 let t := datetime.month T0 - 1 + Z.of_nat i in
                 let y := datetime.year T0 + t / 12 in
                 let m := t mod 12 + 1 in
                 datetime.mk y m (Z.min (month_length y m) (datetime.day T0))
                   (datetime.hour T0) (datetime.minute T0)
                   (datetime.second T0) (datetime.microsecond T0))
              (seq 0 (Z.to_nat N))).
Proof.
  intros Hv HN Hmax. unfold biogeochem_monthly.dt_list, range.
  apply mapM_seq. intros i Hi. apply radd_months; [assumption|].
  cbv zeta. Z.div_mod_to_equations. lia.
Qed.

(** C4, as stated: started on 9999-12-01 with two months asked for, the
    monthly script builds no window list; [relativedelta] has no year 10000
    to go to and the script stops with [ValueError]. *)
Lemma monthly_windows_counterexample :
  datetime.fromisoformat "9999-12-01 00:00:00"
  = Some (datetime.mk 9999 12 1 0 0 0 0)
  /\ biogeochem_monthly.dt_list (datetime.mk 9999 12 1 0 0 0 0) 2 = None
  /\ biogeochem_monthly.main always_fails 10
       (sample_monthly_config "9999-12-01 00:00:00" 2)
       (empty_world "/home/user")
     = Exc ValueError (empty_world "/home/user").
Proof. split; [|split]; vm_compute; reflexivity. Qed.

(** The two scenarios of the window lists, run. *)
Example monthly_scenario :
  (fun dts => map (fun dt => (biogeochem_monthly.dstr_min dt,
                              biogeochem_monthly.dstr_max dt)) dts)
    <$> biogeochem_monthly.dt_list (datetime.mk 2022 1 1 0 0 0 0) 2
  = Some [("2022-01-01 00:00:00", Some "2022-01-31 23:59:59");
          ("2022-02-01 00:00:00", Some "2022-02-28 23:59:59")]%string.
Proof. vm_compute. reflexivity. Qed.

Example daily_scenario :
  (fun dts => map (fun dt => (physics_daily.dstr_min dt,
                              physics_daily.dstr_max dt)) dts)
    <$> physics_daily.dt_list (datetime.mk 2020 2 28 0 0 0 0) 2
  = Some [("2020-02-28 00:00:00", "2020-02-28 23:59:59");
          ("2020-02-29 00:00:00", "2020-02-29 23:59:59")]%string.
Proof. vm_compute. reflexivity. Qed.

Example two_window_log :
  final_log (physics_daily.main (completes_at 0) 10
               (sample_config "2021-01-01 00:00:00" 2)
               (empty_world "/home/user"))
  = Some (String "010" (String "010" ("** Working on GLORYS extraction **"
          +:+ String "010" (" 2021_01_01 success"
          +:+ String "010" " 2021_01_02 fail")))).
Proof. vm_compute. reflexivity. Qed.

(** * Further properties of the scripts *)

(** ** [ensure_dir] *)



(** X1. For a path with a slash whose directory part is not a regular
    file and does not lead through one, [ensure_dir] returns and the
    directory part is a directory afterwards; everything already there
    stays, the files, the dictionaries, the log and the record of calls
    are untouched, and a second call changes nothing. *)
Theorem ensure_dir_creates (p : string) (w : world) :
  has_slash p = true ->
  plain_path p = true ->
  through_file (dirname p) w = false ->
  is_file (abspath (dirname p) w) w = false ->
  exists w',
    ensure_dir p w = Ret tt w'
    /\ is_dir (abspath (dirname p) w') w' = true
    /\ exists_ (dirname p) w' = Ret true w'
    /\ dirs w ⊆ dirs w'
    /\ files w' = files w /\ heap w' = heap w /\ log w' = log w
    /\ calls w' = calls w /\ cwd w' = cwd w
    /\ ensure_dir p w' = Ret tt w'.
Proof.
  intros H _ Hthrough Hfile. pose proof (dirname_nonempty p H) as Hd.
  apply String.eqb_neq in Hd.
  unfold ensure_dir, bind, exists_, makedirs.
  rewrite Hd, Hthrough, Hfile. cbn [negb andb orb].
  destruct (is_dir (abspath (dirname p) w) w) eqn:E.
  - exists w. cbn [negb]. unfold ret.
    rewrite ?Hd, ?Hthrough, ?Hfile, ?E. cbn [negb andb orb]. done.
  - cbn [negb]. rewrite Hthrough, Hfile, E. cbn [orb].
    eexists. split; [reflexivity|].
    match goal with |- context [set_dirs ?ds w] => set (w' := set_dirs ds w) end.
    assert (Hdir : is_dir (abspath (dirname p) w') w' = true).
    { unfold is_dir. apply orb_true_iff. right.
      apply bool_decide_eq_true_2. unfold w'.
      cbn [dirs set_dirs list_to_set]. unfold abspath. cbn [cwd set_dirs].
      set_solver. }
    assert (Hthrough' : through_file (dirname p) w' = false) by exact Hthrough.
    assert (Hfile' : is_file (abspath (dirname p) w') w' = false) by exact Hfile.
    rewrite Hdir, Hthrough', Hfile'. cbn [negb andb orb].
    split; [reflexivity|]. split; [reflexivity|].
    split; [unfold w'; cbn [dirs set_dirs]; set_solver|]. done.
Qed.

Lemma ensure_dir_creates_witness :
  exists w',
    ensure_dir "/mnt/c/data/glorys/forecast_daily/" (empty_world "/home/user")
    = Ret tt w'
    /\ is_dir "/mnt/c/data/glorys/forecast_daily" w' = true
    /\ exists_ "/mnt/c/data/glorys/forecast_daily" w' = Ret true w'.
Proof.
  destruct (ensure_dir_creates "/mnt/c/data/glorys/forecast_daily/"
              (empty_world "/home/user") eq_refl eq_refl eq_refl eq_refl)
    as (w' & Hrun & Hdir & Hex & _).
  exists w'. split; [exact Hrun|]. split; [exact Hdir|exact Hex].
Defined.



(** ** A log that cannot be opened *)








(** ** The window lists at their edges *)

Lemma fromisoformat_valid s dt :
  datetime.fromisoformat s = Some dt -> datetime.valid dt = true.
Proof.
  unfold datetime.fromisoformat. intros H.
  repeat match type of H with
  | context [match ?x with _ => _ end] =>
      destruct x eqn:?; try discriminate H
  end.
  all: unfold datetime.checked in H;
    match type of H with
    | (if datetime.valid ?d then _ else _) = _ =>
        destruct (datetime.valid d) eqn:E; [|discriminate H];
        injection H as <-; exact E
    end.
Qed.

Lemma range_nonpositive N : N <= 0 -> range N = [].
Proof. intros H. unfold range. by replace (Z.to_nat N) with 0%nat by lia. Qed.

Lemma elem_of_range x N : 0 <= x < N -> x ∈ range N.
Proof.
  intros H. unfold range. apply list_elem_of_fmap. exists (Z.to_nat x).
  split; [lia|]. apply elem_of_seq. lia.
Qed.

Lemma mapM_None_elem {A B} (f : A -> option B) l x :
  x ∈ l -> f x = None -> mapM f l = None.
Proof.
  intros Hin Hx. apply mapM_None_2, Exists_exists. eauto.
Qed.

Lemma add_days_overflow T0 x :
  datetime.valid T0 = true -> 0 <= x ->
  datetime.toordinal T0 + x > datetime._MAXORDINAL ->
  (td ← datetime.timedelta_hours (24 * x); datetime.add T0 td) = None.
Proof.
  intros Hv Hx Hmax.
  destruct (valid_ranges T0 Hv) as (_ & _ & _ & Hh & Hmi & Hs & Hus).
  unfold datetime.timedelta_hours. cbv zeta.
  replace (24 * x * 3600) with (x * 86400) by lia.
  rewrite Z.div_mul, Z.mod_mul by lia.
  destruct ((-999999999 <=? x) && (x <=? 999999999)); [|reflexivity].
  cbn [mbind option_bind]. unfold datetime.add.
  cbn [datetime.days datetime.seconds datetime.microseconds]. cbv zeta.
  rewrite !Z.add_0_r.
  rewrite (Z.div_small (datetime.microsecond T0)) by lia.
  rewrite ?Z.add_0_r.
  set (s := datetime.hour T0 * 3600 + datetime.minute T0 * 60 + datetime.second T0).
  assert (Hs' : 0 <= s < 86400) by (unfold s; lia).
  rewrite (Z.div_small s) by lia. rewrite Z.add_0_r.
  replace ((0 <? datetime.toordinal T0 + x)
           && (datetime.toordinal T0 + x <=? datetime._MAXORDINAL))
    with false by lia.
  reflexivity.
Qed.



(** X4. When the last day asked for lies after 9999-12-31 the window list
    of the forecast-physics script cannot be built: the list comprehension
    raises [OverflowError] and the script stops with the world as it found
    it, nothing created and no call made. *)
Theorem daily_list_overflow (client : nat -> attempt) (fuel : nat)
    (cfg : physics_daily.config) (w : world) (T0 : datetime.t) :
  datetime.fromisoformat (physics_daily.date_start cfg) = Some T0 ->
  1 <= physics_daily.number_of_days cfg ->
  datetime.toordinal T0 + (physics_daily.number_of_days cfg - 1)
    > datetime._MAXORDINAL ->
  physics_daily.dt_list T0 (physics_daily.number_of_days cfg) = None
  /\ physics_daily.main client fuel cfg w = Exc OverflowError w.
Proof.
  intros Hbase HN Hmax. pose proof (fromisoformat_valid _ _ Hbase) as Hv.
  assert (Hdts : physics_daily.dt_list T0 (physics_daily.number_of_days cfg)
                 = None).
  { unfold physics_daily.dt_list.
    apply (mapM_None_elem _ _ (physics_daily.number_of_days cfg - 1)).
    - apply elem_of_range. lia.
    - apply add_days_overflow; [assumption|lia|assumption]. }
  split; [exact Hdts|].
  unfold physics_daily.main.
  rewrite Hbase. cbn [of_option]. unfold bind at 1. unfold ret at 1.
  rewrite Hdts. reflexivity.
Qed.

Lemma daily_list_overflow_witness :
  physics_daily.main always_fails 10 (sample_config "9999-12-30 00:00:00" 3)
    (empty_world "/home/user")
  = Exc OverflowError (empty_world "/home/user").
Proof.
  apply (daily_list_overflow always_fails 10
           (sample_config "9999-12-30 00:00:00" 3) (empty_world "/home/user")
           (datetime.mk 9999 12 30 0 0 0 0)).
  - vm_compute. reflexivity.
  - discriminate.
  - vm_compute. reflexivity.
Defined.

Lemma radd_result T0 (x : nat) :
  datetime.valid T0 = true ->
  let t := datetime.month T0 - 1 + Z.of_nat x in
  let y := datetime.year T0 + t / 12 in
  let m := t mod 12 + 1 in
  relativedelta.radd T0 (relativedelta.of_months (Z.of_nat x))
  = datetime.checked
      (datetime.mk y m (Z.min (month_length y m) (datetime.day T0))
         (datetime.hour T0) (datetime.minute T0) (datetime.second T0)
         (datetime.microsecond T0)).
Proof.
  intros Hv t y m.
  destruct (valid_ranges T0 Hv) as (Hy0 & Hm0 & _).
  assert (Hm : 1 <= m <= 12) by (unfold m; Z.div_mod_to_equations; lia).
  unfold relativedelta.radd.
  match goal with
  | |- (let '(year, month) := ?P in _) = _ =>
      assert (Hpair : P = (y, m))
  end.
  { unfold relativedelta.of_months, y, m, t.
    destruct (11 <? Z.abs (Z.of_nat x)) eqn:E11;
      cbn [relativedelta.years relativedelta.months].
    - replace (Z.sgn (Z.of_nat x)) with 1 by lia. rewrite !Z.mul_1_r.
      repeat match goal with |- context [if ?c then _ else _] =>
        let E := fresh "E" in destruct c eqn:E end;
        f_equal; Z.div_mod_to_equations; lia.
    - repeat match goal with |- context [if ?c then _ else _] =>
        let E := fresh "E" in destruct c eqn:E end;
        f_equal; Z.div_mod_to_equations; lia. }
  rewrite Hpair. rewrite monthrange_length by assumption. reflexivity.
Qed.

(** X5. When the last month asked for lies after December 9999 the window
    list of the monthly script cannot be built: [relativedelta] has no
    year to go to, the list comprehension raises [ValueError] and the
    script stops with the world as it found it. *)
Theorem monthly_list_overflow (client : nat -> attempt) (fuel : nat)
    (cfg : biogeochem_monthly.config) (w : world) (T0 : datetime.t) :
  datetime.fromisoformat (biogeochem_monthly.date_start cfg) = Some T0 ->
  1 <= biogeochem_monthly.number_of_months cfg ->
  datetime.year T0
  + (datetime.month T0 - 1 + (biogeochem_monthly.number_of_months cfg - 1)) / 12
    > 9999 ->
  biogeochem_monthly.dt_list T0 (biogeochem_monthly.number_of_months cfg) = None
  /\ biogeochem_monthly.main client fuel cfg w = Exc ValueError w.
Proof.
  intros Hbase HN Hmax. pose proof (fromisoformat_valid _ _ Hbase) as Hv.
  set (N := biogeochem_monthly.number_of_months cfg) in *.
  assert (Hdts : biogeochem_monthly.dt_list T0 N = None).
  { unfold biogeochem_monthly.dt_list.
    apply (mapM_None_elem _ _ (N - 1)).
    - apply elem_of_range. lia.
    - replace (N - 1) with (Z.of_nat (Z.to_nat (N - 1))) by lia.
      rewrite radd_result by assumption. cbv zeta.
      unfold datetime.checked.
      match goal with |- (if ?b then _ else _) = _ =>
        replace b with false; [reflexivity|] end.
      unfold datetime.valid, datetime.MINYEAR, datetime.MAXYEAR.
      cbn [datetime.year datetime.month datetime.day datetime.hour
           datetime.minute datetime.second datetime.microsecond].
      replace (Z.of_nat (Z.to_nat (N - 1))) with (N - 1) by lia.
      lia. }
  split; [exact Hdts|].
  unfold biogeochem_monthly.main.
  rewrite Hbase. cbn [of_option]. unfold bind at 1. unfold ret at 1.
  fold N. rewrite Hdts. reflexivity.
Qed.

Lemma monthly_list_overflow_witness :
  biogeochem_monthly.main always_fails 10
    (sample_monthly_config "9999-11-01 00:00:00" 3) (empty_world "/home/user")
  = Exc ValueError (empty_world "/home/user").
Proof.
  apply (monthly_list_overflow always_fails 10
           (sample_monthly_config "9999-11-01 00:00:00" 3)
           (empty_world "/home/user") (datetime.mk 9999 11 1 0 0 0 0)).
  - vm_compute. reflexivity.
  - discriminate.
  - vm_compute. reflexivity.
Defined.

(** ** Output file names *)

Lemma digit_inj a b :
  0 <= a <= 9 -> 0 <= b <= 9 -> datetime.digit a = datetime.digit b -> a = b.
Proof.
  intros Ha Hb H. apply (f_equal datetime.digit_val) in H.
  rewrite !digit_val_digit in H by assumption. congruence.
Qed.

Lemma pad2_inj a b s s' :
  0 <= a <= 99 -> 0 <= b <= 99 ->
  datetime.pad2 a +:+ s = datetime.pad2 b +:+ s' -> a = b /\ s = s'.
Proof.
  intros Ha Hb H. unfold datetime.pad2 in H. rewrite !append_cons in H.
  injection H as H1 H2 H3.
  apply digit_inj in H1; [|Z.div_mod_to_equations; lia ..].
  apply digit_inj in H2; [|Z.div_mod_to_equations; lia ..].
  split; [Z.div_mod_to_equations; lia|exact H3].
Qed.

Lemma digit_not_sep k : 0 <= k <= 9 -> datetime.digit k <> "_"%char.
Proof.
  intros Hk H. apply (f_equal datetime.digit_val) in H.
  rewrite digit_val_digit in H by assumption. discriminate H.
Qed.

(** The year, written without padding, is read off up to the separator. *)
Lemma year_text_inj a b s s' :
  0 <= a <= 9999 -> 0 <= b <= 9999 ->
  datetime.year_text a +:+ String "_" s = datetime.year_text b +:+ String "_" s' ->
  a = b /\ s = s'.
Proof.
  intros Ha Hb H. unfold datetime.year_text in H.
  repeat match type of H with
  | context [if ?c then _ else _] => destruct c eqn:?
  end;
  unfold datetime.pad2, datetime.pad4 in H; rewrite !append_cons in H;
  change (String.append EmptyString) with (fun x : string => x) in H;
  cbv beta in H; injection H; intros;
  repeat match goal with
  | E : "_"%char = datetime.digit _ |- _ => symmetry in E
  | E : datetime.digit _ = "_"%char |- _ =>
      exfalso; revert E; apply digit_not_sep; Z.div_mod_to_equations; lia
  | E : datetime.digit _ = datetime.digit _ |- _ =>
      apply digit_inj in E; [|Z.div_mod_to_equations; lia ..]
  end;
  (split; [Z.div_mod_to_equations; lia|assumption]).
Qed.

Lemma day_text_inj pre dt1 dt2 :
  datetime.valid dt1 = true -> datetime.valid dt2 = true ->
  (pre +:+ datetime.strftime dt1 "%Y_%m_%d") +:+ ".nc"
  = (pre +:+ datetime.strftime dt2 "%Y_%m_%d") +:+ ".nc" ->
  date_of dt1 = date_of dt2.
Proof.
  intros Hv1 Hv2 H.
  destruct (valid_ranges dt1 Hv1) as (Hy1 & Hm1 & Hd1 & _).
  destruct (valid_ranges dt2 Hv2) as (Hy2 & Hm2 & Hd2 & _).
  pose proof (days_in_month_bound (datetime.year dt1) _ Hm1).
  pose proof (days_in_month_bound (datetime.year dt2) _ Hm2).
  rewrite !append_assoc in H. apply (inj (String.append pre)) in H.
  change (datetime.strftime dt1 "%Y_%m_%d")
    with (datetime.year_text (datetime.year dt1)
          +:+ String "_" (datetime.pad2 (datetime.month dt1)
          +:+ String "_" (datetime.pad2 (datetime.day dt1)))) in H.
  change (datetime.strftime dt2 "%Y_%m_%d")
    with (datetime.year_text (datetime.year dt2)
          +:+ String "_" (datetime.pad2 (datetime.month dt2)
          +:+ String "_" (datetime.pad2 (datetime.day dt2)))) in H.
  rewrite !append_assoc, !append_cons in H.
  apply year_text_inj in H as [Ey H]; [|lia ..].
  rewrite !append_assoc, !append_cons in H.
  apply pad2_inj in H as [Em H]; [|lia ..].
  match type of H with
  | String _ ?a = String _ ?b => assert (H' : a = b) by congruence
  end.
  apply pad2_inj in H' as [Ed _]; [|lia ..].
  unfold date_of. congruence.
Qed.

(** A file name of the forecast-physics script tells the day. *)
Lemma out_fn_of_day v0 dt1 dt2 fn :
  datetime.valid dt1 = true -> datetime.valid dt2 = true ->
  physics_daily.out_fn_of v0 dt1 = Some fn ->
  physics_daily.out_fn_of v0 dt2 = Some fn ->
  date_of dt1 = date_of dt2.
Proof.
  intros Hv1 Hv2 H1 H2. unfold physics_daily.out_fn_of in *.
  repeat match type of H1 with
  | (if ?c then _ else _) = _ => destruct c
  end; try discriminate H1;
  rewrite <- H2 in H1; apply (inj Some) in H1;
  [ apply (day_text_inj "glorys_so_" dt1 dt2 Hv1 Hv2)
  | apply (day_text_inj "glorys_thetao_" dt1 dt2 Hv1 Hv2)
  | apply (day_text_inj "glorys_uovo_" dt1 dt2 Hv1 Hv2)
  | apply (day_text_inj "glorys_zos_" dt1 dt2 Hv1 Hv2) ];
  exact H1.
Qed.

Lemma valid_on_day T0 ymd :
  datetime.valid T0 = true -> valid_date ymd ->
  ordinal ymd <= datetime._MAXORDINAL ->
  datetime.valid (at_time_of T0 ymd) = true.
Proof.
  intros Hv Hd Hord. pose proof (ordinal_year_bound ymd Hd Hord) as Hy.
  destruct (valid_ranges T0 Hv) as (_ & _ & _ & Hh & Hmi & Hs & Hus).
  destruct ymd as [[y m] d]. destruct Hd as (Hy1 & Hm & Hd). cbn [fst] in Hy.
  rewrite <- days_in_month_length in Hd by assumption.
  unfold at_time_of, datetime.valid, datetime.MINYEAR, datetime.MAXYEAR.
  cbn [datetime.year datetime.month datetime.day datetime.hour
       datetime.minute datetime.second datetime.microsecond].
  lia.
Qed.

Lemma daily_dt_list_None T0 N :
  datetime.valid T0 = true -> 1 <= N ->
  datetime.toordinal T0 + (N - 1) > datetime._MAXORDINAL ->
  physics_daily.dt_list T0 N = None.
Proof.
  intros Hv HN Hmax. unfold physics_daily.dt_list.
  apply (mapM_None_elem _ _ (N - 1)).
  - apply elem_of_range. lia.
  - apply add_days_overflow; [assumption|lia|assumption].
Qed.

(** A window list that was built is the list of the days from [T0] on,
    all of them inside the calendar. *)
Lemma daily_dt_list_Some T0 N dts :
  datetime.valid T0 = true ->
  physics_daily.dt_list T0 N = Some dts ->
  dts = map (fun i => at_time_of T0 (Nat.iter i next_day (date_of T0)))
            (seq 0 (Z.to_nat N))
  /\ Forall (fun dt => datetime.valid dt = true) dts.
Proof.
  intros Hv H.
  destruct (Z_le_gt_dec N 0) as [HN|HN].
  { unfold physics_daily.dt_list in H. rewrite range_nonpositive in H by assumption.
    injection H as <-. replace (Z.to_nat N) with 0%nat by lia. by split. }
  destruct (Z_le_gt_dec (datetime.toordinal T0 + (N - 1)) datetime._MAXORDINAL)
    as [Hmax|Hmax].
  - rewrite daily_dt_list in H by (assumption || lia). injection H as <-.
    split; [reflexivity|]. apply Forall_forall. intros dt Hin.
    apply list_elem_of_fmap in Hin as (i & -> & Hi). apply elem_of_seq in Hi.
    pose proof (valid_date_of T0 Hv) as Hd0.
    apply valid_on_day; [assumption|by apply iter_next_day_valid|].
    rewrite ordinal_iter_next_day by assumption.
    change (ordinal (date_of T0)) with (datetime.toordinal T0). lia.
  - rewrite daily_dt_list_None in H by (assumption || lia). discriminate.
Qed.

(** X6. File names of the forecast-physics script tell the day: two dates
    that get the same name under the same first variable are the same
    calendar day, and in the window list of one run no two windows get the
    same file name. *)
Theorem daily_names_distinct (T0 : datetime.t) (N : Z)
    (dts : list datetime.t) (v0 : string) :
  datetime.valid T0 = true ->
  physics_daily.dt_list T0 N = Some dts ->
  (forall dt1 dt2 fn,
      datetime.valid dt1 = true -> datetime.valid dt2 = true ->
      physics_daily.out_fn_of v0 dt1 = Some fn ->
      physics_daily.out_fn_of v0 dt2 = Some fn ->
      date_of dt1 = date_of dt2)
  /\ (forall i j dti dtj fn,
        dts !! i = Some dti -> dts !! j = Some dtj ->
        physics_daily.out_fn_of v0 dti = Some fn ->
        physics_daily.out_fn_of v0 dtj = Some fn ->
        i = j).
Proof.
  intros Hv Hlist. split; [intros; eapply out_fn_of_day; eassumption|].
  destruct (daily_dt_list_Some T0 N dts Hv Hlist) as [-> Hall].
  intros i j dti dtj fn Hi Hj Hfi Hfj.
  pose proof (proj1 (Forall_forall _ _) Hall _ (list_elem_of_lookup_2 _ _ _ Hi)) as Hvi.
  pose proof (proj1 (Forall_forall _ _) Hall _ (list_elem_of_lookup_2 _ _ _ Hj)) as Hvj.
  pose proof (out_fn_of_day v0 dti dtj fn Hvi Hvj Hfi Hfj) as Hday.
  apply lookup_map_seq in Hi as [-> _]. apply lookup_map_seq in Hj as [-> _].
  pose proof (valid_date_of T0 Hv) as Hd0.
  pose proof (ordinal_iter_next_day i _ Hd0) as Hoi.
  pose proof (ordinal_iter_next_day j _ Hd0) as Hoj.
  assert (Hd : Nat.iter i next_day (date_of T0) = Nat.iter j next_day (date_of T0)).
  { destruct (Nat.iter i next_day (date_of T0)) as [[y1 m1] d1].
    destruct (Nat.iter j next_day (date_of T0)) as [[y2 m2] d2].
    exact Hday. }
  rewrite Hd in Hoi. lia.
Qed.

Lemma daily_names_distinct_witness :
  physics_daily.dt_list (datetime.mk 2020 2 28 0 0 0 0) 3
  = Some [datetime.mk 2020 2 28 0 0 0 0; datetime.mk 2020 2 29 0 0 0 0;
          datetime.mk 2020 3 1 0 0 0 0]
  /\ ((forall dt1 dt2 fn,
         datetime.valid dt1 = true -> datetime.valid dt2 = true ->
         physics_daily.out_fn_of "zos" dt1 = Some fn ->
         physics_daily.out_fn_of "zos" dt2 = Some fn ->
         date_of dt1 = date_of dt2)
      /\ (forall i j dti dtj fn,
            [datetime.mk 2020 2 28 0 0 0 0; datetime.mk 2020 2 29 0 0 0 0;
             datetime.mk 2020 3 1 0 0 0 0] !! i = Some dti ->
            [datetime.mk 2020 2 28 0 0 0 0; datetime.mk 2020 2 29 0 0 0 0;
             datetime.mk 2020 3 1 0 0 0 0] !! j = Some dtj ->
            physics_daily.out_fn_of "zos" dti = Some fn ->
            physics_daily.out_fn_of "zos" dtj = Some fn ->
            i = j)).
Proof.
  split; [vm_compute; reflexivity|].
  apply (daily_names_distinct (datetime.mk 2020 2 28 0 0 0 0) 3
           [datetime.mk 2020 2 28 0 0 0 0; datetime.mk 2020 2 29 0 0 0 0;
            datetime.mk 2020 3 1 0 0 0 0] "zos").
  - reflexivity.
  - vm_compute. reflexivity.
Defined.

Lemma month_text_inj pre dt1 dt2 :
  datetime.valid dt1 = true -> datetime.valid dt2 = true ->
  (pre +:+ datetime.strftime dt1 "%Y_%m") +:+ ".nc"
  = (pre +:+ datetime.strftime dt2 "%Y_%m") +:+ ".nc" ->
  datetime.year dt1 = datetime.year dt2 /\ datetime.month dt1 = datetime.month dt2.
Proof.
  intros Hv1 Hv2 H.
  destruct (valid_ranges dt1 Hv1) as (Hy1 & Hm1 & _).
  destruct (valid_ranges dt2 Hv2) as (Hy2 & Hm2 & _).
  rewrite !append_assoc in H. apply (inj (String.append pre)) in H.
  change (datetime.strftime dt1 "%Y_%m")
    with (datetime.year_text (datetime.year dt1)
          +:+ String "_" (datetime.pad2 (datetime.month dt1))) in H.
  change (datetime.strftime dt2 "%Y_%m")
    with (datetime.year_text (datetime.year dt2)
          +:+ String "_" (datetime.pad2 (datetime.month dt2))) in H.
  rewrite !append_assoc, !append_cons in H.
  apply year_text_inj in H as [Ey H]; [|lia ..].
  apply pad2_inj in H as [Em _]; [|lia ..]. by split.
Qed.

Lemma monthly_dt_list_None T0 N :
  datetime.valid T0 = true -> 1 <= N ->
  datetime.year T0 + (datetime.month T0 - 1 + (N - 1)) / 12 > 9999 ->
  biogeochem_monthly.dt_list T0 N = None.
Proof.
  intros Hv HN Hmax. unfold biogeochem_monthly.dt_list.
  apply (mapM_None_elem _ _ (N - 1)).
  - apply elem_of_range. lia.
  - replace (N - 1) with (Z.of_nat (Z.to_nat (N - 1))) by lia.
    rewrite radd_result by assumption. cbv zeta.
    unfold datetime.checked.
    match goal with |- (if ?b then _ else _) = _ =>
      replace b with false; [reflexivity|] end.
    unfold datetime.valid, datetime.MINYEAR, datetime.MAXYEAR.
    cbn [datetime.year datetime.month datetime.day datetime.hour
         datetime.minute datetime.second datetime.microsecond].
    replace (Z.of_nat (Z.to_nat (N - 1))) with (N - 1) by lia.
    lia.
Qed.

Lemma monthly_dt_list_Some T0 N dts :
  datetime.valid T0 = true ->
  biogeochem_monthly.dt_list T0 N = Some dts ->
  dts = map (fun i =>
               let t := datetime.month T0 - 1 + Z.of_nat i in
               let y := datetime.year T0 + t / 12 in
               let m := t mod 12 + 1 in
               datetime.mk y m (Z.min (month_length y m) (datetime.day T0))
                 (datetime.hour T0) (datetime.minute T0)
                 (datetime.second T0) (datetime.microsecond T0))
            (seq 0 (Z.to_nat N))
  /\ Forall (fun dt => datetime.valid dt = true) dts.
Proof.
  intros Hv H. destruct (valid_ranges T0 Hv) as (Hy0 & Hm0 & _).
  destruct (Z_le_gt_dec N 0) as [HN|HN].
  { unfold biogeochem_monthly.dt_list in H.
    rewrite range_nonpositive in H by assumption.
    injection H as <-. replace (Z.to_nat N) with 0%nat by lia. by split. }
  destruct (Z_le_gt_dec
              (datetime.year T0 + (datetime.month T0 - 1 + (N - 1)) / 12) 9999)
    as [Hmax|Hmax].
  - rewrite monthly_dt_list in H by (assumption || lia). injection H as <-.
    split; [reflexivity|]. apply Forall_forall. intros dt Hin.
    apply list_elem_of_fmap in Hin as (i & -> & Hi). apply elem_of_seq in Hi.
    cbv zeta. apply valid_clamped; [assumption| |].
    + Z.div_mod_to_equations. lia.
    + Z.div_mod_to_equations. lia.
  - rewrite monthly_dt_list_None in H by (assumption || lia). discriminate.
Qed.

(** X7. File names of the monthly script tell the month: two dates with
    the same name lie in the same month of the same year, and in the
    window list of one run no two windows get the same file name. *)
Theorem monthly_names_distinct (T0 : datetime.t) (N : Z)
    (dts : list datetime.t) :
  datetime.valid T0 = true ->
  biogeochem_monthly.dt_list T0 N = Some dts ->
  (forall dt1 dt2,
      datetime.valid dt1 = true -> datetime.valid dt2 = true ->
      biogeochem_monthly.out_fn dt1 = biogeochem_monthly.out_fn dt2 ->
      datetime.year dt1 = datetime.year dt2
      /\ datetime.month dt1 = datetime.month dt2)
  /\ (forall i j dti dtj,
        dts !! i = Some dti -> dts !! j = Some dtj ->
        biogeochem_monthly.out_fn dti = biogeochem_monthly.out_fn dtj ->
        i = j).
Proof.
  intros Hv Hlist.
  assert (Hinj : forall dt1 dt2,
      datetime.valid dt1 = true -> datetime.valid dt2 = true ->
      biogeochem_monthly.out_fn dt1 = biogeochem_monthly.out_fn dt2 ->
      datetime.year dt1 = datetime.year dt2
      /\ datetime.month dt1 = datetime.month dt2).
  { intros dt1 dt2 Hv1 Hv2 H. unfold biogeochem_monthly.out_fn in H.
    apply (month_text_inj "glorys_biogeochem_" dt1 dt2 Hv1 Hv2). exact H. }
  split; [exact Hinj|].
  destruct (monthly_dt_list_Some T0 N dts Hv Hlist) as [-> Hall].
  destruct (valid_ranges T0 Hv) as (Hy0 & Hm0 & _).
  intros i j dti dtj Hi Hj Hf.
  pose proof (proj1 (Forall_forall _ _) Hall _ (list_elem_of_lookup_2 _ _ _ Hi)) as Hvi.
  pose proof (proj1 (Forall_forall _ _) Hall _ (list_elem_of_lookup_2 _ _ _ Hj)) as Hvj.
  destruct (Hinj dti dtj Hvi Hvj Hf) as [Ey Em].
  apply lookup_map_seq in Hi as [-> _]. apply lookup_map_seq in Hj as [-> _].
  cbv zeta in Ey, Em.
  cbn [datetime.year datetime.month] in Ey, Em.
  Z.div_mod_to_equations. lia.
Qed.

Lemma monthly_names_distinct_witness :
  biogeochem_monthly.dt_list (datetime.mk 2022 12 1 0 0 0 0) 2
  = Some [datetime.mk 2022 12 1 0 0 0 0; datetime.mk 2023 1 1 0 0 0 0]
  /\ ((forall dt1 dt2,
         datetime.valid dt1 = true -> datetime.valid dt2 = true ->
         biogeochem_monthly.out_fn dt1 = biogeochem_monthly.out_fn dt2 ->
         datetime.year dt1 = datetime.year dt2
         /\ datetime.month dt1 = datetime.month dt2)
      /\ (forall i j dti dtj,
            [datetime.mk 2022 12 1 0 0 0 0; datetime.mk 2023 1 1 0 0 0 0] !! i
            = Some dti ->
            [datetime.mk 2022 12 1 0 0 0 0; datetime.mk 2023 1 1 0 0 0 0] !! j
            = Some dtj ->
            biogeochem_monthly.out_fn dti = biogeochem_monthly.out_fn dtj ->
            i = j)).
Proof.
  split; [vm_compute; reflexivity|].
  apply (monthly_names_distinct (datetime.mk 2022 12 1 0 0 0 0) 2
           [datetime.mk 2022 12 1 0 0 0 0; datetime.mk 2023 1 1 0 0 0 0]).
  - reflexivity.
  - vm_compute. reflexivity.
Defined.

(** X8. In the forecast-physics script two first variables lead to the same
    file name, on whatever dates, only when they select the same product:
    ['uo'] and ['vo'] share their names, every other pair keeps apart. *)
Theorem names_follow_products (v v' : string) (dt dt' : datetime.t)
    (fn : string) :
  physics_daily.out_fn_of v dt = Some fn ->
  physics_daily.out_fn_of v' dt' = Some fn ->
  product_id_for v = product_id_for v'
  /\ physics_daily.out_fn_of "uo" dt = physics_daily.out_fn_of "vo" dt.
Proof.
  intros H1 H2. split; [|reflexivity].
  unfold physics_daily.out_fn_of, product_id_for in *.
  destruct (String.eqb v "so"), (String.eqb v "thetao"),
    (String.eqb v "uo" || String.eqb v "vo"), (String.eqb v "zos");
    try discriminate H1;
    destruct (String.eqb v' "so"), (String.eqb v' "thetao"),
      (String.eqb v' "uo" || String.eqb v' "vo"), (String.eqb v' "zos");
    try discriminate H2; try reflexivity;
    exfalso; rewrite <- H2 in H1; apply (inj Some) in H1;
    apply (inj (String.append "glorys_")) in H1;
    rewrite ?append_cons in H1; discriminate H1.
Qed.

Lemma names_follow_products_witness :
  product_id_for "uo" = product_id_for "vo".
Proof.
  apply (names_follow_products "uo" "vo" (datetime.mk 2021 1 1 0 0 0 0)
           (datetime.mk 2021 1 1 0 0 0 0) "glorys_uovo_2021_01_01.nc").
  - reflexivity.
  - reflexivity.
Defined.

(** ** What the client is handed *)

Lemma assign_all_deref d l w :
  deref d (assign_all d l w) = assign_map l (deref d w).
Proof.
  revert w. induction l as [|kv l IH]; intros w; [reflexivity|].
  cbn [assign_all assign_map]. by rewrite IH, deref_store.
Qed.

Lemma assign_all_dirs d l w : dirs (assign_all d l w) = dirs w.
Proof. revert w. induction l as [|kv l IH]; intros w; [done|]. cbn. by rewrite IH. Qed.

Lemma execute_request_detail client d w :
  exists w',
    execute_request client (MotuOptions__init__ d) w
    = match result (client (length (calls w))) with
      | Completed _ => Ret tt w'
      | Raised e => Exc e w'
      end
    /\ calls w' = calls w ++ [mk_call (deref d w) (files w)]
    /\ deref d w' = assign_map (assigns (client (length (calls w)))) (deref d w)
    /\ log w' = log w /\ cwd w' = cwd w /\ dirs w' = dirs w
    /\ (raises (client (length (calls w))) = true -> files w' = files w).
Proof.
  unfold execute_request. unfold bind at 1. rewrite getattr_out_dir.
  unfold bind at 1. rewrite getattr_out_name.
  unfold bind at 1. unfold record_call. cbn [attrs MotuOptions__init__].
  set (a := client (length (calls w))).
  set (w1 := set_calls (calls w ++ [mk_call (deref d w) (files w)]) w).
  unfold bind at 1. rewrite for_setattr.
  destruct (assign_all_frame d (assigns a) w1) as (Hl & Hc & Hcalls & Hf).
  pose proof (assign_all_deref d (assigns a) w1) as Hd.
  pose proof (assign_all_dirs d (assigns a) w1) as Hdirs.
  change (deref d w1) with (deref d w) in Hd.
  unfold raises. destruct (result a) as [content|e].
  - destruct (default VNone (deref d w !! "out_dir")),
      (default VNone (deref d w !! "out_name"));
      (eexists; split; [reflexivity|]); cbn;
      rewrite ?Hl, ?Hc, ?Hcalls, ?Hdirs; repeat split; auto; discriminate.
  - eexists; split; [reflexivity|]. rewrite Hl, Hc, Hcalls, Hdirs, Hf.
    repeat split; auto.
Qed.

Lemma loop_body_detail client d c g w :
  exists w',
    loop_body client d (c, g) w
    = Ret (c + 1, g || completes (client (length (calls w)))) w'
    /\ calls w' = calls w ++ [mk_call (deref d w) (files w)]
    /\ deref d w' = assign_map (assigns (client (length (calls w)))) (deref d w)
    /\ log w' = log w /\ cwd w' = cwd w /\ dirs w' = dirs w
    /\ (raises (client (length (calls w))) = true -> files w' = files w).
Proof.
  unfold loop_body. cbn [fst snd]. unfold bind at 1. unfold print at 1.
  set (w1 := set_console _ w).
  destruct (execute_request_detail client d w1)
    as (w' & Heq & Hcalls & Hd & Hl & Hc & Hdirs & Hf).
  change (calls w1) with (calls w) in *. change (deref d w1) with (deref d w) in *.
  change (files w1) with (files w) in *. change (log w1) with (log w) in *.
  change (cwd w1) with (cwd w) in *. change (dirs w1) with (dirs w) in *.
  unfold bind at 1. unfold try_. rewrite Heq. unfold completes, raises in *.
  destruct (result (client (length (calls w)))) as [content|e].
  - eexists. split; [unfold bind, print, ret; cbn; rewrite orb_true_r; reflexivity|].
    cbn. rewrite ?deref_set_console. repeat split; auto; try discriminate.
  - assert (exists w2, (match e with
       | SocketTimeout => print "  *Socket timed out, trying again" ;;; ret g
       | _ => print "  *Something went wrong, trying again" ;;; ret g
       end) w' = Ret g w2 /\ w2 = set_console (console w2) w')
      as (w2 & E2 & Hw2).
    { destruct e; eexists; (split; [reflexivity|]); done. }
    eexists. split.
    { unfold bind at 1. rewrite E2. cbn. rewrite orb_false_r. reflexivity. }
    rewrite Hw2. cbn [calls log cwd dirs files set_console].
    rewrite deref_set_console. repeat split; auto.
Qed.

(** The retry, call by call. *)
Lemma retry_calls client d b :
  forall fuel c w,
    11 - c = Z.of_nat b -> (b <= fuel)%nat ->
    exists st w',
      while fuel loop_guard (loop_body client d) (c, false) w = Ret st w'
      /\ calls w' = calls w ++ calls_made client (length (calls w)) b
                                  (deref d w) (files w)
      /\ log w' = log w /\ cwd w' = cwd w /\ dirs w' = dirs w
      /\ (succeeds client (length (calls w)) b = false -> files w' = files w).
Proof.
  induction b as [|b IH]; intros fuel c w Hc Hfuel.
  - exists (c, false), w. rewrite while_exit by (unfold loop_guard; cbn; lia).
    cbn. rewrite app_nil_r. done.
  - destruct fuel as [|fuel]; [lia|].
    rewrite while_enter by (unfold loop_guard; cbn; lia).
    destruct (loop_body_detail client d c false w)
      as (w1 & Hb & Hcalls & Hd & Hl & Hcw & Hdirs & Hf).
    unfold bind at 1. rewrite Hb. cbn [orb succeeds calls_made].
    destruct (completes (client (length (calls w)))) eqn:Hcomp.
    + exists (c + 1, true), w1.
      rewrite while_exit by (unfold loop_guard; cbn; lia).
      cbn. repeat split; auto; try discriminate.
    + destruct (IH fuel (c + 1) w1) as (st & w' & Hw & Hc' & Hl' & Hcw' & Hdirs' & Hf');
        [lia|lia|].
      assert (Hlen : length (calls w1) = Datatypes.S (length (calls w)))
        by (rewrite Hcalls, length_app; cbn; lia).
      assert (Hr : raises (client (length (calls w))) = true)
        by (unfold completes in Hcomp; by destruct (raises _)).
      rewrite Hlen, Hd, (Hf Hr) in *.
      exists st, w'. split; [exact Hw|].
      split; [rewrite Hc', Hcalls, <- app_assoc; reflexivity|].
      cbn [orb]. repeat split; try congruence.
      intros Hs. rewrite (Hf' Hs). reflexivity.
Qed.

Lemma get_extraction_calls client fuel d w :
  (10 <= fuel)%nat ->
  exists w',
    get_extraction client fuel d w
    = Ret (outcome_token client (length (calls w))) w'
    /\ calls w' = calls w ++ calls_made client (length (calls w)) 10
                                (deref d w) (files w)
    /\ log w' = log w /\ cwd w' = cwd w /\ dirs w' = dirs w
    /\ (succeeds client (length (calls w)) 10 = false -> files w' = files w).
Proof.
  intros Hfuel.
  destruct (get_extraction_spec client fuel d w Hfuel) as (w0 & Hget & _).
  destruct (retry_calls client d 10 fuel 1 w) as (st & w' & Hw & Hrest);
    [reflexivity|assumption|].
  unfold get_extraction, bind in *. rewrite Hw in *.
  destruct (snd st); injection Hget as <- <-; eauto.
Qed.

Lemma calls_made_length client n b m fs :
  length (calls_made client n b m fs) = attempts_made client n b.
Proof.
  revert n m. induction b as [|b IH]; intros n m; [reflexivity|].
  cbn. destruct (completes (client n)); [reflexivity|]. by rewrite IH.
Qed.

Lemma calls_made_present client n b m fs :
  Forall (fun c => present c = fs) (calls_made client n b m fs).
Proof.
  revert n m. induction b as [|b IH]; intros n m; cbn; constructor;
    [reflexivity|].
  destruct (completes (client n)); [constructor|apply IH].
Qed.

Lemma assign_map_lookup l m k :
  k ∉ l.*1 -> assign_map l m !! k = m !! k.
Proof.
  revert m. induction l as [|kv l IH]; intros m Hk; [reflexivity|].
  cbn in Hk. apply not_elem_of_cons in Hk as [Hne Hk].
  cbn [assign_map]. rewrite IH by assumption. by apply lookup_insert_ne.
Qed.

Lemma calls_made_frame client n b m fs k :
  never_assigns client k ->
  Forall (fun c => request c !! k = m !! k) (calls_made client n b m fs).
Proof.
  intros Hna. revert n m. induction b as [|b IH]; intros n m; cbn; constructor;
    [reflexivity|].
  destruct (completes (client n)); [constructor|].
  eapply Forall_impl; [apply IH|]. cbn. intros c Hc.
  rewrite Hc. apply assign_map_lookup, Hna.
Qed.

Lemma calls_made_next client b :
  forall n m fs i c c',
    calls_made client n b m fs !! i = Some c ->
    calls_made client n b m fs !! Datatypes.S i = Some c' ->
    request c' = assign_map (assigns (client (n + i)%nat)) (request c)
    /\ raises (client (n + i)%nat) = true.
Proof.
  induction b as [|b IH]; intros n m fs i c c' Hi Hsi; [discriminate|].
  cbn [calls_made] in *. destruct (completes (client n)) eqn:E;
    [destruct i; discriminate|].
  destruct i as [|i].
  - cbn in Hi. injection Hi as <-. cbn in Hsi. rewrite Nat.add_0_r.
    destruct b as [|b]; [discriminate|]. cbn in Hsi. injection Hsi as <-.
    split; [reflexivity|]. unfold completes in E. by destruct (raises _).
  - cbn in Hi, Hsi. replace (n + Datatypes.S i)%nat
      with (Datatypes.S n + i)%nat by lia.
    eapply IH; eassumption.
Qed.

Lemma attempts_made_least client n b :
  (1 <= attempts_made client n (Datatypes.S b))%nat.
Proof. cbn. destruct (completes (client n)); lia. Qed.

(** X9. The attempts of one [get_extraction] share the dictionary: the
    first is handed the dictionary as it stands, and every later one the
    request of the attempt before it with that attempt's assignments made
    through the adapter still in it; a later attempt only follows a failed
    one, and finds the files as the first did. *)
Theorem assignments_persist (client : nat -> attempt) (fuel : nat) (d : loc)
    (w : world) :
  (10 <= fuel)%nat ->
  exists r w' new,
    get_extraction client fuel d w = Ret r w'
    /\ calls w' = calls w ++ new
    /\ (exists c, new !! 0%nat = Some c /\ request c = deref d w
                  /\ present c = files w)
    /\ forall i c c',
         new !! i = Some c -> new !! Datatypes.S i = Some c' ->
         raises (client (length (calls w) + i)%nat) = true
         /\ request c'
            = assign_map (assigns (client (length (calls w) + i)%nat)) (request c)
         /\ present c' = present c.
Proof.
  intros Hfuel.
  destruct (get_extraction_calls client fuel d w Hfuel) as (w' & Hget & Hcalls & _).
  eexists _, w', _. split; [exact Hget|]. split; [exact Hcalls|].
  split; [eexists; split; [reflexivity|]; done|].
  intros i c c' Hi Hsi.
  destruct (calls_made_next client 10 _ _ _ i c c' Hi Hsi) as [Hreq Hr].
  split; [exact Hr|]. split; [exact Hreq|].
  pose proof (calls_made_present client (length (calls w)) 10 (deref d w) (files w))
    as Hall.
  rewrite Forall_forall in Hall.
  rewrite (Hall c (list_elem_of_lookup_2 _ _ _ Hi)).
  rewrite (Hall c' (list_elem_of_lookup_2 _ _ _ Hsi)). reflexivity.
Qed.

Lemma assignments_persist_witness :
  exists r w' new,
    get_extraction (completes_at 1) 10 0%nat
      (mk_world {[ 0%nat := {[ "user"%string := VStr "me" ]} ]} ∅ ∅ "/" None [] [])
    = Ret r w'
    /\ calls w' = [] ++ new
    /\ forall c c',
         new !! 0%nat = Some c -> new !! 1%nat = Some c' ->
         request c' = assign_map (assigns (completes_at 1 0)) (request c).
Proof.
  destruct (assignments_persist (completes_at 1) 10 0%nat
              (mk_world {[ 0%nat := {[ "user"%string := VStr "me" ]} ]} ∅ ∅ "/"
                 None [] []) (le_n 10))
    as (r & w' & new & Hget & Hcalls & _ & Hnext).
  exists r, w', new. split; [exact Hget|]. split; [exact Hcalls|].
  intros c c' H0 H1. destruct (Hnext 0%nat c c' H0 H1) as (_ & Hreq & _).
  exact Hreq.
Defined.

(** One window of the forecast-physics script, call by call. *)
Lemma window_detail client fuel cfg d dt w v0 rest text fn :
  (10 <= fuel)%nat ->
  physics_daily.var_list cfg = v0 :: rest ->
  physics_daily.out_fn_of v0 dt = Some fn ->
  log w = Some text ->
  exists w',
    physics_daily.window client fuel cfg d dt w = Ret tt w'
    /\ calls w' = calls w ++ calls_made client (length (calls w)) 10
         (<["date_max" := VStr (physics_daily.dstr_max dt)]>
            (<["date_min" := VStr (physics_daily.dstr_min dt)]>
               (<["out_name" := VStr fn]> (deref d w))))
         (delete (path_join (cwd w) fn) (files w))
    /\ cwd w' = cwd w
    /\ (succeeds client (length (calls w)) 10 = false ->
        files w' = delete (path_join (cwd w) fn) (files w)).
Proof.
  intros Hfuel Hvar Hfn Hlog.
  unfold physics_daily.window. rewrite Hvar. unfold first_item. cbn [head of_option].
  unfold bind at 1. unfold ret at 1. rewrite Hfn. cbn [of_option].
  unfold bind at 1. unfold ret at 1.
  unfold bind at 1. unfold dict_setitem at 1.
  unfold bind at 1. unfold dict_setitem at 1.
  unfold bind at 1. unfold dict_setitem at 1.
  unfold bind at 1. unfold print at 1.
  match goal with |- context [bind (isfile fn) _ ?x] => set (w3 := x) end.
  assert (H3log : log w3 = log w) by reflexivity.
  assert (H3cwd : cwd w3 = cwd w) by reflexivity.
  assert (H3calls : calls w3 = calls w) by reflexivity.
  assert (H3files : files w3 = files w) by reflexivity.
  assert (H3d : deref d w3
    = <["date_max" := VStr (physics_daily.dstr_max dt)]>
        (<["date_min" := VStr (physics_daily.dstr_min dt)]>
           (<["out_name" := VStr fn]> (deref d w)))).
  { subst w3. rewrite deref_set_console. by rewrite !deref_store. }
  clearbody w3.
  assert (exists w4,
    (forall (K : bool -> M unit),
       (b <- isfile fn ;;
        (if b then (if physics_daily.force_overwrite then remove fn else ret tt)
         else ret tt) ;;;
        b0 <- isfile fn ;; K b0) w3 = K false w4)
    /\ log w4 = log w3 /\ cwd w4 = cwd w3 /\ calls w4 = calls w3
    /\ heap w4 = heap w3
    /\ files w4 = delete (path_join (cwd w3) fn) (files w3))
    as (w4 & HK & H4log & H4cwd & H4calls & H4heap & H4files).
  { unfold isfile, remove, abspath.
    destruct (files w3 !! path_join (cwd w3) fn) as [c|] eqn:E.
    - exists (set_files (delete (path_join (cwd w3) fn) (files w3)) w3).
      split; [|done].
      intros K. unfold bind at 1. rewrite E.
      rewrite bool_decide_eq_true_2 by eauto.
      unfold bind at 1. cbn [physics_daily.force_overwrite].
      rewrite E. unfold bind at 1. cbn [files cwd set_files].
      rewrite lookup_delete_eq.
      rewrite bool_decide_eq_false_2 by (intros [? ?]; discriminate).
      reflexivity.
    - exists w3. split; [|by rewrite delete_id].
      intros K. unfold bind at 1. rewrite E.
      rewrite bool_decide_eq_false_2 by (intros [? ?]; discriminate).
      unfold bind at 1. unfold ret at 1. unfold bind at 1.
      rewrite E.
      rewrite bool_decide_eq_false_2 by (intros [? ?]; discriminate).
      reflexivity. }
  rewrite HK. cbn [negb].
  destruct (get_extraction_calls client fuel d w4 Hfuel)
    as (w5 & Hget & H5calls & H5log & H5cwd & _ & H5files).
  unfold bind at 1. rewrite Hget.
  unfold f_write. rewrite H5log, H4log, H3log, Hlog.
  eexists. split; [reflexivity|]. cbn [log cwd calls files set_log].
  assert (Hd4 : deref d w4 = deref d w3) by (unfold deref; by rewrite H4heap).
  rewrite H5calls, H4calls, H3calls, Hd4, H3d, H4files, H3cwd, H3files.
  split; [reflexivity|]. split; [congruence|].
  intros Hs. rewrite H4calls, H3calls in H5files.
  rewrite (H5files Hs), H4files, H3cwd, H3files. reflexivity.
Qed.

(** X10. Each call of one window of the forecast-physics script is handed
    that window's request: its [out_name], [date_min] and [date_max] are
    those of the window's date, unless the client assigned the key itself.
    There are between one and ten such calls, and at each of them no file
    of the window's name is left in the working directory. *)
Theorem window_requests (client : nat -> attempt) (fuel : nat)
    (cfg : physics_daily.config) (d : loc) (dt : datetime.t) (w : world)
    (v0 : string) (rest : list string) (text : string) :
  (10 <= fuel)%nat ->
  physics_daily.var_list cfg = v0 :: rest ->
  in_vocabulary v0 = true ->
  log w = Some text ->
  exists fn w' new,
    physics_daily.out_fn_of v0 dt = Some fn
    /\ physics_daily.window client fuel cfg d dt w = Ret tt w'
    /\ calls w' = calls w ++ new
    /\ (1 <= length new <= 10)%nat
    /\ Forall (fun c =>
         present c !! path_join (cwd w) fn = None
         /\ (never_assigns client "out_name" ->
             request c !! "out_name" = Some (VStr fn))
         /\ (never_assigns client "date_min" ->
             request c !! "date_min" = Some (VStr (physics_daily.dstr_min dt)))
         /\ (never_assigns client "date_max" ->
             request c !! "date_max" = Some (VStr (physics_daily.dstr_max dt))))
         new.
Proof.
  intros Hfuel Hvar Hvoc Hlog.
  destruct (out_fn_of_vocabulary v0 dt Hvoc) as [fn Hfn].
  destruct (window_detail client fuel cfg d dt w v0 rest text fn
              Hfuel Hvar Hfn Hlog) as (w' & Hrun & Hcalls & _).
  eexists fn, w', _. split; [exact Hfn|]. split; [exact Hrun|].
  split; [exact Hcalls|].
  split.
  { rewrite calls_made_length.
    pose proof (attempts_made_bound client (length (calls w)) 10).
    pose proof (attempts_made_least client (length (calls w)) 9). lia. }
  match type of Hcalls with
  | _ = _ ++ calls_made _ _ _ ?m ?fs => set (m3 := m) in *; set (fs3 := fs) in *
  end.
  apply Forall_forall. intros c Hc.
  split.
  { pose proof (calls_made_present client (length (calls w)) 10 m3 fs3) as Hp.
    rewrite Forall_forall in Hp. rewrite (Hp c Hc). apply lookup_delete_eq. }
  repeat split; intros Hna;
    pose proof (calls_made_frame client (length (calls w)) 10 m3 fs3 _ Hna) as Hf;
    rewrite Forall_forall in Hf; rewrite (Hf c Hc); unfold m3.
  - rewrite !lookup_insert_ne by discriminate. apply lookup_insert_eq.
  - rewrite lookup_insert_ne by discriminate. apply lookup_insert_eq.
  - apply lookup_insert_eq.
Qed.

Lemma window_requests_witness :
  exists fn w' new,
    physics_daily.out_fn_of "thetao" (datetime.mk 2021 1 1 0 0 0 0) = Some fn
    /\ physics_daily.window always_fails 10
         (sample_config "2021-01-01 00:00:00" 1) 0%nat
         (datetime.mk 2021 1 1 0 0 0 0)
         (mk_world ∅ ∅ ∅ "/home/user" (Some "") [] [])
       = Ret tt w'
    /\ calls w' = [] ++ new
    /\ Forall (fun c => request c !! "out_name" = Some (VStr fn)) new.
Proof.
  destruct (window_requests always_fails 10
              (sample_config "2021-01-01 00:00:00" 1) 0%nat
              (datetime.mk 2021 1 1 0 0 0 0)
              (mk_world ∅ ∅ ∅ "/home/user" (Some "") [] [])
              "thetao" [] "")
    as (fn & w' & new & Hfn & Hrun & Hcalls & _ & Hall).
  - apply le_n.
  - reflexivity.
  - vm_compute. reflexivity.
  - reflexivity.
  - exists fn, w', new. split; [exact Hfn|]. split; [exact Hrun|].
    split; [exact Hcalls|].
    eapply Forall_impl; [exact Hall|]. cbn. intros c (_ & Hname & _).
    apply Hname. intros n. apply (bool_decide_unpack _). vm_compute. exact I.
Defined.

(** X11. A window whose ten attempts all fail leaves the files as they
    were, less the file of the window's name in the working directory: the
    file removed for overwriting is not there afterwards. *)
Theorem failed_window_loses_file (client : nat -> attempt) (fuel : nat)
    (cfg : physics_daily.config) (d : loc) (dt : datetime.t) (w : world)
    (v0 : string) (rest : list string) (text fn : string) :
  (10 <= fuel)%nat ->
  physics_daily.var_list cfg = v0 :: rest ->
  physics_daily.out_fn_of v0 dt = Some fn ->
  log w = Some text ->
  (forall j, (j < 10)%nat -> raises (client (length (calls w) + j)%nat) = true) ->
  exists w',
    physics_daily.window client fuel cfg d dt w = Ret tt w'
    /\ files w' = delete (path_join (cwd w) fn) (files w)
    /\ files w' !! path_join (cwd w) fn = None.
Proof.
  intros Hfuel Hvar Hfn Hlog Hfail.
  destruct (window_detail client fuel cfg d dt w v0 rest text fn
              Hfuel Hvar Hfn Hlog) as (w' & Hrun & _ & _ & Hfiles).
  destruct (all_fail client _ 10 Hfail) as [_ Hs].
  exists w'. split; [exact Hrun|]. rewrite (Hfiles Hs).
  split; [reflexivity|apply lookup_delete_eq].
Qed.

Lemma failed_window_loses_file_witness :
  exists w',
    physics_daily.window always_fails 10
      (sample_config "2021-01-01 00:00:00" 1) 0%nat
      (datetime.mk 2021 1 1 0 0 0 0)
      (mk_world ∅ {[ "/home/user/glorys_thetao_2021_01_01.nc"%string := "old"%string ]}
         ∅ "/home/user" (Some "") [] [])
    = Ret tt w'
    /\ files w' !! "/home/user/glorys_thetao_2021_01_01.nc" = None.
Proof.
  destruct (failed_window_loses_file always_fails 10
              (sample_config "2021-01-01 00:00:00" 1) 0%nat
              (datetime.mk 2021 1 1 0 0 0 0)
              (mk_world ∅ {[ "/home/user/glorys_thetao_2021_01_01.nc"%string
                             := "old"%string ]} ∅ "/home/user" (Some "") [] [])
              "thetao" [] "" "glorys_thetao_2021_01_01.nc")
    as (w' & Hrun & _ & Hgone).
  - apply le_n.
  - reflexivity.
  - vm_compute. reflexivity.
  - reflexivity.
  - intros j _. reflexivity.
  - exists w'. split; [exact Hrun|exact Hgone].
Defined.

(** ** Runs of the forecast-physics script *)














(** ** Runs of the monthly script *)

Lemma monthly_dstr_max_Some dt :
  datetime.valid dt = true -> is_Some (biogeochem_monthly.dstr_max dt).
Proof.
  intros Hv. destruct dt as [y m d h n s us].
  rewrite monthly_dstr_max_text by assumption. eauto.
Qed.

Lemma monthly_window_spec client fuel cfg d dt w text :
  (10 <= fuel)%nat ->
  datetime.valid dt = true ->
  log w = Some text ->
  exists w' smax new,
    biogeochem_monthly.dstr_max dt = Some smax
    /\ biogeochem_monthly.window client fuel cfg d dt w = Ret tt w'
    /\ log w' = Some (text +:+ biogeochem_monthly.log_line dt
                                 (outcome_token client (length (calls w))))
    /\ length (calls w')
       = (length (calls w) + attempts_made client (length (calls w)) 10)%nat
    /\ calls w' = calls w ++ new
    /\ (never_assigns client "out_name" ->
        Forall (fun c => request c !! "out_name"
                         = Some (VStr (biogeochem_monthly.out_fn dt))) new)
    /\ (never_assigns client "date_min" ->
        Forall (fun c => request c !! "date_min"
                         = Some (VStr (biogeochem_monthly.dstr_min dt))) new)
    /\ (never_assigns client "date_max" ->
        Forall (fun c => request c !! "date_max" = Some (VStr smax)) new).
Proof.
  intros Hfuel Hv Hlog.
  destruct (monthly_dstr_max_Some dt Hv) as [smax Hmax].
  unfold biogeochem_monthly.window. rewrite Hmax. cbn [of_option].
  unfold bind at 1. unfold ret at 1.
  unfold bind at 1. unfold dict_setitem at 1.
  unfold bind at 1. unfold dict_setitem at 1.
  unfold bind at 1. unfold dict_setitem at 1.
  unfold bind at 1. unfold print at 1.
  match goal with
  | |- context [bind (isfile (biogeochem_monthly.out_fn dt)) _ ?x] =>
      set (w3 := x)
  end.
  assert (H3log : log w3 = log w) by reflexivity.
  assert (H3calls : calls w3 = calls w) by reflexivity.
  assert (H3d : deref d w3
    = <["date_max" := VStr smax]>
        (<["date_min" := VStr (biogeochem_monthly.dstr_min dt)]>
           (<["out_name" := VStr (biogeochem_monthly.out_fn dt)]> (deref d w)))).
  { subst w3. rewrite deref_set_console. by rewrite !deref_store. }
  clearbody w3.
  set (fn := biogeochem_monthly.out_fn dt) in *.
  assert (exists w4,
    (forall (K : bool -> M unit),
       (b <- isfile fn ;;
        (if b then (if biogeochem_monthly.force_overwrite then remove fn else ret tt)
         else ret tt) ;;;
        b0 <- isfile fn ;; K b0) w3 = K false w4)
    /\ log w4 = log w3 /\ calls w4 = calls w3 /\ heap w4 = heap w3)
    as (w4 & HK & H4log & H4calls & H4heap).
  { unfold isfile, remove, abspath.
    destruct (files w3 !! path_join (cwd w3) fn) as [c|] eqn:E.
    - exists (set_files (delete (path_join (cwd w3) fn) (files w3)) w3).
      split; [|done].
      intros K. unfold bind at 1. rewrite E.
      rewrite bool_decide_eq_true_2 by eauto.
      unfold bind at 1. cbn [biogeochem_monthly.force_overwrite].
      rewrite E. unfold bind at 1. cbn [files cwd set_files].
      rewrite lookup_delete_eq.
      rewrite bool_decide_eq_false_2 by (intros [? ?]; discriminate).
      reflexivity.
    - exists w3. split; [|done].
      intros K. unfold bind at 1. rewrite E.
      rewrite bool_decide_eq_false_2 by (intros [? ?]; discriminate).
      unfold bind at 1. unfold ret at 1. unfold bind at 1.
      rewrite E.
      rewrite bool_decide_eq_false_2 by (intros [? ?]; discriminate).
      reflexivity. }
  rewrite HK. cbn [negb].
  destruct (get_extraction_calls client fuel d w4 Hfuel)
    as (w5 & Hget & H5calls & H5log & _).
  unfold bind at 1. rewrite Hget.
  unfold f_write. rewrite H5log, H4log, H3log, Hlog.
  eexists _, smax, _. split; [reflexivity|].
  split; [reflexivity|]. cbn [log calls set_log].
  rewrite H4calls, H3calls in *.
  split; [reflexivity|].
  split; [rewrite H5calls, length_app, calls_made_length; reflexivity|].
  split; [exact H5calls|].
  assert (Hd4 : deref d w4 = deref d w3) by (unfold deref; by rewrite H4heap).
  repeat split; intros Hna;
    (eapply Forall_impl;
       [apply (calls_made_frame client _ 10 (deref d w4) (files w4) _ Hna)|]);
    cbn; intros c Hc; rewrite Hc, Hd4, H3d.
  - rewrite !lookup_insert_ne by discriminate. apply lookup_insert_eq.
  - rewrite lookup_insert_ne by discriminate. apply lookup_insert_eq.
  - apply lookup_insert_eq.
Qed.




Example monthly_two_window_log :
  final_log (biogeochem_monthly.main (completes_at 0) 10
               (sample_monthly_config "2022-01-01 00:00:00" 2)
               (empty_world "/home/user"))
  = Some (String "010" (String "010" ("** Working on GLORYS extraction **"
          +:+ String "010" (" 2022_01 success"
          +:+ String "010" " 2022_02 fail")))).
Proof. vm_compute. reflexivity. Qed.

(** ** Taking a run up again *)

Lemma map_seq_drop {A} (g : nat -> A) n k :
  drop k (map g (seq 0 n)) = map (fun i => g (i + k)%nat) (seq 0 (n - k)).
Proof.
  change (map g (seq 0 n)) with (g <$> seq 0 n).
  rewrite <- fmap_drop, drop_seq. cbn [Nat.add].
  assert (Hshift : forall j a,
            seq (a + k) j = (fun i => (i + k)%nat) <$> seq a j).
  { induction j as [|j IH]; intros a; [reflexivity|].
    cbn [seq fmap list_fmap]. f_equal. apply (IH (Datatypes.S a)). }
  change (seq k (n - k)) with (seq (0 + k) (n - k)).
  rewrite (Hshift (n - k)%nat 0%nat), <- list_fmap_compose. reflexivity.
Qed.

(** X18. The forecast-physics script can be taken up again at any of its
    windows: for a start at midnight in the year 1000 or later, the
    [date_min] text of window [k] read back by [fromisoformat] is that
    window's date, and the window list built from it for the [N - k] days
    left is the rest of the list of the first run, from window [k] on. *)
Theorem daily_run_resumes (T0 : datetime.t) (N : Z) (dts : list datetime.t)
    (k : nat) (dt : datetime.t) :
  datetime.valid T0 = true ->
  1000 <= datetime.year T0 ->
  datetime.hour T0 = 0 -> datetime.minute T0 = 0 ->
  datetime.second T0 = 0 -> datetime.microsecond T0 = 0 ->
  physics_daily.dt_list T0 N = Some dts ->
  dts !! k = Some dt ->
  datetime.fromisoformat (physics_daily.dstr_min dt) = Some dt
  /\ physics_daily.dt_list dt (N - Z.of_nat k) = Some (drop k dts).
Proof.
  intros Hv Hyear Hh Hmi Hs Hus Hdts Hk.
  destruct (daily_dt_list_Some T0 N dts Hv Hdts) as [-> Hall].
  pose proof (proj1 (Forall_lookup _ _) Hall k dt Hk) as Hvk. cbv beta in Hvk.
  apply lookup_map_seq in Hk as [-> Hk].
  assert (Hmax : datetime.toordinal T0 + (N - 1) <= datetime._MAXORDINAL).
  { destruct (Z_le_gt_dec (datetime.toordinal T0 + (N - 1))
                datetime._MAXORDINAL) as [H|H]; [exact H|].
    rewrite daily_dt_list_None in Hdts by (assumption || lia). discriminate. }
  pose proof (valid_date_of T0 Hv) as Hd0.
  pose proof (iter_next_day_valid k _ Hd0) as Hdk.
  pose proof (ordinal_iter_next_day k _ Hd0) as Hok.
  pose proof (iter_next_day_year k (date_of T0)) as Hyk.
  change (datetime.toordinal T0) with (ordinal (date_of T0)) in Hmax.
  destruct (Nat.iter k next_day (date_of T0)) as [[y m] d] eqn:E.
  cbn [fst date_of] in Hyk.
  assert (Hord : ordinal (y, m, d) <= datetime._MAXORDINAL) by lia.
  unfold at_time_of in *. rewrite Hh, Hmi, Hs, Hus in *.
  split.
  { apply (fromisoformat_stamp_year y m d 0 0 0 Hvk). lia. }
  rewrite daily_dt_list; [|exact Hvk|lia|].
  2:{ change (datetime.toordinal (datetime.mk y m d 0 0 0 0))
        with (ordinal (y, m, d)). lia. }
  f_equal. rewrite map_seq_drop.
  replace (Z.to_nat (N - Z.of_nat k)) with (Z.to_nat N - k)%nat by lia.
  apply map_ext. intros i.
  rewrite Nat.iter_add, E.
  change (date_of (datetime.mk y m d 0 0 0 0)) with (y, m, d).
  destruct (Nat.iter i next_day (y, m, d)) as [[y' m'] d'].
  cbn [datetime.hour datetime.minute datetime.second datetime.microsecond].
  reflexivity.
Qed.

Lemma daily_run_resumes_witness :
  datetime.fromisoformat
    (physics_daily.dstr_min (datetime.mk 2020 3 1 0 0 0 0))
  = Some (datetime.mk 2020 3 1 0 0 0 0)
  /\ physics_daily.dt_list (datetime.mk 2020 3 1 0 0 0 0) (3 - Z.of_nat 2)
     = Some (drop 2 [datetime.mk 2020 2 28 0 0 0 0;
                     datetime.mk 2020 2 29 0 0 0 0;
                     datetime.mk 2020 3 1 0 0 0 0]).
Proof.
  apply (daily_run_resumes (datetime.mk 2020 2 28 0 0 0 0) 3
           [datetime.mk 2020 2 28 0 0 0 0; datetime.mk 2020 2 29 0 0 0 0;
            datetime.mk 2020 3 1 0 0 0 0] 2 (datetime.mk 2020 3 1 0 0 0 0));
    try (vm_compute; reflexivity); vm_compute; discriminate.
Defined.

(** X19. The monthly script can be taken up again at any of its windows:
    for a start on the first of a month at midnight in the year 1000 or
    later, the [date_min] text of window [k] read back by [fromisoformat]
    is that window's date, and
    the window list built from it for the [N - k] months left is the rest
    of the list of the first run, from window [k] on. *)
Theorem monthly_run_resumes (T0 : datetime.t) (N : Z) (dts : list datetime.t)
    (k : nat) (dt : datetime.t) :
  datetime.valid T0 = true ->
  1000 <= datetime.year T0 ->
  datetime.day T0 = 1 ->
  datetime.hour T0 = 0 -> datetime.minute T0 = 0 ->
  datetime.second T0 = 0 -> datetime.microsecond T0 = 0 ->
  biogeochem_monthly.dt_list T0 N = Some dts ->
  dts !! k = Some dt ->
  datetime.fromisoformat (biogeochem_monthly.dstr_min dt) = Some dt
  /\ biogeochem_monthly.dt_list dt (N - Z.of_nat k) = Some (drop k dts).
Proof.
  intros Hv Hyear Hd Hh Hmi Hs Hus Hdts Hk.
  destruct (monthly_dt_list_Some T0 N dts Hv Hdts) as [-> Hall].
  pose proof (proj1 (Forall_lookup _ _) Hall k dt Hk) as Hvk. cbv beta in Hvk.
  apply lookup_map_seq in Hk as [-> Hk].
  destruct (valid_ranges T0 Hv) as (Hy0 & Hm0 & _).
  assert (Hmax : datetime.year T0 + (datetime.month T0 - 1 + (N - 1)) / 12
                 <= 9999).
  { destruct (Z_le_gt_dec
                (datetime.year T0 + (datetime.month T0 - 1 + (N - 1)) / 12)
                9999) as [H|H]; [exact H|].
    rewrite monthly_dt_list_None in Hdts by (assumption || lia). discriminate. }
  assert (Hone : forall y m, Z.min (month_length y m) 1 = 1).
  { intros y m. destruct (month_length_cases y m) as [E|[E|[E|E]]];
      rewrite E; reflexivity. }
  cbv zeta in *. rewrite Hd, Hh, Hmi, Hs, Hus, Hone in *.
  set (t := datetime.month T0 - 1 + Z.of_nat k) in *.
  split.
  { refine (proj1 (monthly_strings _ _ _ _ _ _ _ Hvk _)).
    unfold t. Z.div_mod_to_equations. lia. }
  rewrite monthly_dt_list; [|exact Hvk|lia|].
  2:{ cbn [datetime.year datetime.month]. unfold t.
      Z.div_mod_to_equations. lia. }
  f_equal. rewrite map_seq_drop.
  replace (Z.to_nat (N - Z.of_nat k)) with (Z.to_nat N - k)%nat by lia.
  apply map_ext. intros i. cbv zeta.
  cbn [datetime.year datetime.month datetime.day datetime.hour
       datetime.minute datetime.second datetime.microsecond].
  rewrite ?Hd, ?Hone.
  replace (datetime.year T0 + t / 12 + (t mod 12 + 1 - 1 + Z.of_nat i) / 12)
    with (datetime.year T0
          + (datetime.month T0 - 1 + Z.of_nat (i + k)) / 12)
    by (unfold t; Z.div_mod_to_equations; lia).
  replace ((t mod 12 + 1 - 1 + Z.of_nat i) mod 12)
    with ((datetime.month T0 - 1 + Z.of_nat (i + k)) mod 12)
    by (unfold t; Z.div_mod_to_equations; lia).
  reflexivity.
Qed.

Lemma monthly_run_resumes_witness :
  datetime.fromisoformat
    (biogeochem_monthly.dstr_min (datetime.mk 2023 1 1 0 0 0 0))
  = Some (datetime.mk 2023 1 1 0 0 0 0)
  /\ biogeochem_monthly.dt_list (datetime.mk 2023 1 1 0 0 0 0)
       (3 - Z.of_nat 1)
     = Some (drop 1 [datetime.mk 2022 12 1 0 0 0 0;
                     datetime.mk 2023 1 1 0 0 0 0;
                     datetime.mk 2023 2 1 0 0 0 0]).
Proof.
  apply (monthly_run_resumes (datetime.mk 2022 12 1 0 0 0 0) 3
           [datetime.mk 2022 12 1 0 0 0 0; datetime.mk 2023 1 1 0 0 0 0;
            datetime.mk 2023 2 1 0 0 0 0] 1 (datetime.mk 2023 1 1 0 0 0 0));
    try (vm_compute; reflexivity); vm_compute; discriminate.
Defined.

(** * The windows and the requests made for them *)

(** The dates every call of one window of the forecast-physics script
    carries. *)
Lemma window_dates client fuel cfg d dt w v0 rest text :
  (10 <= fuel)%nat ->
  physics_daily.var_list cfg = v0 :: rest ->
  in_vocabulary v0 = true ->
  log w = Some text ->
  exists w' new,
    physics_daily.window client fuel cfg d dt w = Ret tt w'
    /\ calls w' = calls w ++ new
    /\ (1 <= length new <= 10)%nat
    /\ (never_assigns client "date_min" ->
        Forall (fun c => request c !! "date_min"
                         = Some (VStr (physics_daily.dstr_min dt))) new)
    /\ (never_assigns client "date_max" ->
        Forall (fun c => request c !! "date_max"
                         = Some (VStr (physics_daily.dstr_max dt))) new).
Proof.
  intros Hfuel Hvar Hvoc Hlog.
  destruct (out_fn_of_vocabulary v0 dt Hvoc) as [fn Hfn].
  destruct (window_detail client fuel cfg d dt w v0 rest text fn
              Hfuel Hvar Hfn Hlog) as (w' & Hrun & Hcalls & _).
  eexists w', _. split; [exact Hrun|]. split; [exact Hcalls|].
  split.
  { rewrite calls_made_length.
    pose proof (attempts_made_bound client (length (calls w)) 10).
    pose proof (attempts_made_least client (length (calls w)) 9). lia. }
  split; intros Hna;
    (eapply Forall_impl; [apply (calls_made_frame _ _ _ _ _ _ Hna)|]);
    cbn; intros c Hc; rewrite Hc.
  - rewrite lookup_insert_ne by discriminate. apply lookup_insert_eq.
  - apply lookup_insert_eq.
Qed.

(** C5, as the code has it. For a count [N >= 0] and a start [T0] in the
    year 1000 or later such that the last day asked for is not after
    9999-12-31, the daily script builds exactly [N] windows in order;
    window [i] is the calendar day [i] days after that of [T0], its
    [date_min] is that day at 00:00:00 and its [date_max] the same day at
    23:59:59, later by 86399 seconds, and one window is exactly 24 hours
    after the one before.  These two texts are what every request made
    for the window carries as [date_min] and [date_max], unless the client
    assigns the key itself. *)
Theorem daily_windows (T0 : datetime.t) (N : Z) :
  datetime.valid T0 = true ->
  1000 <= datetime.year T0 ->
  0 <= N ->
  datetime.toordinal T0 + (N - 1) <= datetime._MAXORDINAL ->
  exists dts,
    physics_daily.dt_list T0 N = Some dts
    /\ length dts = Z.to_nat N
    /\ forall i dt,
         dts !! i = Some dt ->
         exists y m d,
           Nat.iter i next_day (date_of T0) = (y, m, d)
           /\ date_of dt = (y, m, d)
           /\ datetime.fromisoformat (physics_daily.dstr_min dt)
              = Some (datetime.mk y m d 0 0 0 0)
           /\ datetime.fromisoformat (physics_daily.dstr_max dt)
              = Some (datetime.mk y m d 23 59 59 0)
           /\ datetime.seconds_between (datetime.mk y m d 0 0 0 0)
                (datetime.mk y m d 23 59 59 0) = 86399
           /\ (forall dt', dts !! Datatypes.S i = Some dt' ->
                 datetime.seconds_between dt dt' = 86400)
           /\ forall client fuel cfg d0 w v0 rest text,
                (10 <= fuel)%nat ->
                physics_daily.var_list cfg = v0 :: rest ->
                in_vocabulary v0 = true ->
                log w = Some text ->
                exists w' new,
                  physics_daily.window client fuel cfg d0 dt w = Ret tt w'
                  /\ calls w' = calls w ++ new
                  /\ (1 <= length new <= 10)%nat
                  /\ (never_assigns client "date_min" ->
                      Forall (fun c => request c !! "date_min"
                                = Some (VStr (physics_daily.dstr_min dt))) new)
                  /\ (never_assigns client "date_max" ->
                      Forall (fun c => request c !! "date_max"
                                = Some (VStr (physics_daily.dstr_max dt))) new).
Proof.
  intros Hv Hyear HN Hmax. rewrite daily_dt_list by assumption.
  eexists. split; [reflexivity|].
  split; [by rewrite length_map, length_seq|].
  intros i dt Hi. apply lookup_map_seq in Hi as [-> Hi].
  pose proof (valid_date_of T0 Hv) as Hd0.
  pose proof (iter_next_day_valid i _ Hd0) as Hdi.
  pose proof (ordinal_iter_next_day i _ Hd0) as Hoi.
  pose proof (iter_next_day_year i (date_of T0)) as Hyi.
  change (datetime.toordinal T0) with (ordinal (date_of T0)) in Hmax.
  destruct (Nat.iter i next_day (date_of T0)) as [[y m] d] eqn:E.
  cbn [fst date_of] in Hyi.
  exists y, m, d. split; [reflexivity|]. split; [reflexivity|].
  assert (Hord : ordinal (y, m, d) <= datetime._MAXORDINAL) by lia.
  assert (Hy : 1000 <= y) by lia.
  split.
  { exact (fromisoformat_stamp_year y m d 0 0 0
             (valid_stamp (y, m, d) 0 0 0 Hdi Hord ltac:(lia) ltac:(lia) ltac:(lia))
             Hy). }
  split.
  { exact (fromisoformat_stamp_year y m d 23 59 59
             (valid_stamp (y, m, d) 23 59 59 Hdi Hord ltac:(lia) ltac:(lia) ltac:(lia))
             Hy). }
  split.
  { unfold datetime.seconds_between, datetime.toordinal.
    cbn [datetime.year datetime.month datetime.day datetime.hour
         datetime.minute datetime.second]. lia. }
  split.
  { intros dt' Hi'. apply lookup_map_seq in Hi' as [-> _].
    rewrite Nat.iter_succ, E.
    pose proof (ordinal_next_day (y, m, d) Hdi) as Hnext.
    destruct (next_day (y, m, d)) as [[y' m'] d'].
    unfold datetime.seconds_between, datetime.toordinal, at_time_of.
    cbn [datetime.year datetime.month datetime.day datetime.hour
         datetime.minute datetime.second].
    unfold ordinal in Hnext. lia. }
  intros client fuel cfg d0 w v0 rest text Hfuel Hvar Hvoc Hlog.
  by apply (window_dates client fuel cfg d0 _ w v0 rest text).
Qed.

Lemma daily_windows_witness :
  exists dts,
    physics_daily.dt_list (datetime.mk 2020 2 28 0 0 0 0) 2 = Some dts
    /\ length dts = 2%nat
    /\ forall dt, dts !! 1%nat = Some dt ->
         exists y m d,
           Nat.iter 1 next_day (2020, 2, 28) = (y, m, d)
           /\ date_of dt = (y, m, d)
           /\ datetime.fromisoformat (physics_daily.dstr_max dt)
              = Some (datetime.mk y m d 23 59 59 0).
Proof.
  destruct (daily_windows (datetime.mk 2020 2 28 0 0 0 0) 2)
    as (dts & Hlist & Hlen & Hwin).
  - reflexivity.
  - vm_compute. discriminate.
  - discriminate.
  - vm_compute. discriminate.
  - exists dts. split; [exact Hlist|]. split; [exact Hlen|].
    intros dt Hdt. destruct (Hwin 1%nat dt Hdt)
      as (y & m & d & Hday & Hdate & _ & Hmax & _).
    exists y, m, d. split; [exact Hday|]. split; [exact Hdate|exact Hmax].
Defined.

(** C4, as the code has it. For a count [N >= 0] and a start [T0] in the
    year 1000 or later such that the last month asked for is not after
    December 9999, the monthly script builds exactly [N] windows in order;
    window [i] lies in the calendar month [i] months after that of [T0],
    the year going up after December; its [date_min] is the first of that
    month at 00:00:00 and its [date_max] the last day of that month at
    23:59:59, the last day being the number of days [calendar.monthrange]
    gives: 28, 29, 30 or 31.  These two texts are what every request made
    for the window carries as [date_min] and [date_max], unless the client
    assigns the key itself. *)
Theorem monthly_windows (T0 : datetime.t) (N : Z) :
  datetime.valid T0 = true ->
  1000 <= datetime.year T0 ->
  0 <= N ->
  datetime.year T0 + (datetime.month T0 - 1 + (N - 1)) / 12 <= 9999 ->
  exists dts,
    biogeochem_monthly.dt_list T0 N = Some dts
    /\ length dts = Z.to_nat N
    /\ forall i dt,
         dts !! i = Some dt ->
         exists y m,
           Nat.iter i next_month (datetime.year T0, datetime.month T0) = (y, m)
           /\ (datetime.year dt, datetime.month dt) = (y, m)
           /\ calendar.monthrange_ndays y m = Some (month_length y m)
           /\ 28 <= month_length y m <= 31
           /\ datetime.fromisoformat (biogeochem_monthly.dstr_min dt)
              = Some (datetime.mk y m 1 0 0 0 0)
           /\ exists smax,
                biogeochem_monthly.dstr_max dt = Some smax
                /\ datetime.fromisoformat smax
                   = Some (datetime.mk y m (month_length y m) 23 59 59 0)
                /\ forall client fuel cfg d0 w text,
                     (10 <= fuel)%nat ->
                     log w = Some text ->
                     exists w' new,
                       biogeochem_monthly.window client fuel cfg d0 dt w
                       = Ret tt w'
                       /\ calls w' = calls w ++ new
                       /\ (1 <= length new <= 10)%nat
                       /\ (never_assigns client "date_min" ->
                           Forall (fun c => request c !! "date_min"
                                     = Some (VStr (biogeochem_monthly.dstr_min dt)))
                             new)
                       /\ (never_assigns client "date_max" ->
                           Forall (fun c => request c !! "date_max"
                                     = Some (VStr smax)) new).
Proof.
  intros Hv Hyear HN Hmax. rewrite monthly_dt_list by assumption.
  destruct (valid_ranges T0 Hv) as (Hy0 & Hm0 & _).
  eexists. split; [reflexivity|].
  split; [by rewrite length_map, length_seq|].
  intros i dt Hi. apply lookup_map_seq in Hi as [-> Hi]. cbv zeta.
  set (t := datetime.month T0 - 1 + Z.of_nat i).
  set (y := datetime.year T0 + t / 12). set (m := t mod 12 + 1).
  assert (Hm : 1 <= m <= 12) by (unfold m; Z.div_mod_to_equations; lia).
  assert (Hy : 1000 <= y <= 9999)
    by (unfold y, t; Z.div_mod_to_equations; lia).
  exists y, m. split; [by rewrite iter_next_month|]. split; [reflexivity|].
  split; [by apply monthrange_length|].
  split; [rewrite <- days_in_month_length by assumption;
          by apply days_in_month_bound|].
  set (dt := datetime.mk y m _ _ _ _ _).
  assert (Hvdt : datetime.valid dt = true)
    by (apply valid_clamped; [assumption|lia|assumption]).
  destruct (monthly_strings _ _ _ _ _ _ _ Hvdt (proj1 Hy))
    as (Hmin & smax & Hsmax & Hread).
  split; [exact Hmin|].
  exists smax. split; [exact Hsmax|]. split; [exact Hread|].
  intros client fuel cfg d0 w text Hfuel Hlog.
  destruct (monthly_window_spec client fuel cfg d0 dt w text Hfuel Hvdt Hlog)
    as (w' & smax' & new & Hs' & Hrun & _ & Hlen & Hcalls & _ & Hdmin & Hdmax).
  assert (smax' = smax) as -> by (unfold dt in *; congruence).
  exists w', new. split; [exact Hrun|]. split; [exact Hcalls|].
  split; [|by split].
  rewrite Hcalls, length_app in Hlen.
  pose proof (attempts_made_bound client (length (calls w)) 10).
  pose proof (attempts_made_least client (length (calls w)) 9). lia.
Qed.

Lemma monthly_windows_witness :
  exists dts,
    biogeochem_monthly.dt_list (datetime.mk 2022 1 1 0 0 0 0) 2 = Some dts
    /\ length dts = 2%nat
    /\ forall dt, dts !! 1%nat = Some dt ->
         exists y m,
           Nat.iter 1 next_month (2022, 1) = (y, m)
           /\ datetime.fromisoformat (biogeochem_monthly.dstr_min dt)
              = Some (datetime.mk y m 1 0 0 0 0)
           /\ exists smax,
                biogeochem_monthly.dstr_max dt = Some smax
                /\ datetime.fromisoformat smax
                   = Some (datetime.mk y m (month_length y m) 23 59 59 0).
Proof.
  destruct (monthly_windows (datetime.mk 2022 1 1 0 0 0 0) 2)
    as (dts & Hlist & Hlen & Hwin).
  - reflexivity.
  - vm_compute. discriminate.
  - discriminate.
  - vm_compute. discriminate.
  - exists dts. split; [exact Hlist|]. split; [exact Hlen|].
    intros dt Hdt. destruct (Hwin 1%nat dt Hdt)
      as (y & m & Hmonth & _ & _ & _ & Hmin & smax & Hsmax & Hread & _).
    exists y, m. split; [exact Hmonth|]. split; [exact Hmin|].
    exists smax. split; [exact Hsmax|exact Hread].
Defined.
